(** * git-analysis.py: a shallow embedding and its checked properties

    The script [scripts/git-analysis.py] lists a GitLab repository tree,
    samples files, sends them to a text-generation endpoint and renders the
    structured answer.  This development embeds its pure parts (string
    helpers, the file selector, the request assembly, the response parser,
    the slug function) as Rocq functions, and the two loops that talk to a
    provider as functions of that provider.

    Conventions
    - A Python [str] is a [text], a list of characters.  A character is a
      code point in U+0000..U+00FF (the type [ascii]); [str.lower] and the
      case-insensitive comparison of [re] are modelled exactly on that range.
    - A Python [int] is a [Z]; slices follow Python's rules for negative and
      out-of-range bounds.
    - A Python [dict] is an insertion-ordered association list ([Dict]).
    - Decoded JSON strings are lists of code points ([N]), since a [\uXXXX]
      escape can denote any code point. *)

From Stdlib Require Import List ZArith Lia Bool Ascii String.
Import ListNotations.

#[local] Open Scope string_scope.
#[local] Open Scope list_scope.
#[local] Open Scope Z_scope.

Definition text := list ascii.

(** String literals stand for the list of their characters. *)
Coercion list_ascii_of_string : string >-> list.

(** ** Python built-ins on sequences and strings *)

Module Py.

Definition len {A : Type} (s : list A) : Z := Z.of_nat (List.length s).

(** Normalisation of one slice bound against a sequence of length [n]:
    negative bounds count from the end, and everything is clipped. *)
Definition clamp (n i : Z) : Z :=
  if i <? 0 then Z.max (i + n) 0 else Z.min i n.

(** [s[lo:hi]] *)
Definition slice {A : Type} (s : list A) (lo hi : Z) : list A :=
  let n := len s in
  let lo' := clamp n lo in
  let hi' := clamp n hi in
  firstn (Z.to_nat (hi' - lo')) (skipn (Z.to_nat lo') s).

(** [s[:hi]] *)
Definition slice_to {A : Type} (s : list A) (hi : Z) : list A := slice s 0 hi.

(** [s[lo:]] *)
Definition slice_from {A : Type} (s : list A) (lo : Z) : list A :=
  slice s lo (len s).

Fixpoint list_eqb {A : Type} (eqb : A -> A -> bool) (a b : list A) : bool :=
  match a, b with
  | [], [] => true
  | x :: a', y :: b' => eqb x y && list_eqb eqb a' b'
  | _, _ => false
  end.

Definition str_eqb (a b : text) : bool := list_eqb Ascii.eqb a b.

(** [x in l] for a list of strings *)
Definition str_in (x : text) (l : list text) : bool := existsb (str_eqb x) l.

(** [s.find(c)] for a one-character needle: the lowest index, or -1. *)
Fixpoint find_from (c : ascii) (s : text) (i : Z) : Z :=
  match s with
  | [] => -1
  | x :: s' => if Ascii.eqb x c then i else find_from c s' (i + 1)
  end.

Definition find (c : ascii) (s : text) : Z := find_from c s 0.

(** [s.rfind(c)] for a one-character needle: the highest index, or -1. *)
Fixpoint rfind_from (c : ascii) (s : text) (i last : Z) : Z :=
  match s with
  | [] => last
  | x :: s' => rfind_from c s' (i + 1) (if Ascii.eqb x c then i else last)
  end.

Definition rfind (c : ascii) (s : text) : Z := rfind_from c s 0 (-1).

(** [needle in s] for strings *)
Fixpoint startswith (s prefix : text) {struct prefix} : bool :=
  match prefix, s with
  | [], _ => true
  | p :: prefix', x :: s' => Ascii.eqb x p && startswith s' prefix'
  | _ :: _, [] => false
  end.

Fixpoint contains (s needle : text) : bool :=
  startswith s needle
  || match s with
     | [] => false
     | _ :: s' => contains s' needle
     end.

(** [s.endswith(suffix)] *)
Definition endswith (s suffix : text) : bool :=
  startswith (rev s) (rev suffix).

Definition code (c : ascii) : N := N_of_ascii c.

Definition between (lo hi c : ascii) : bool :=
  (code lo <=? code c)%N && (code c <=? code hi)%N.

Definition is_upper_ascii (c : ascii) : bool := between "A" "Z" c.
Definition is_lower_ascii (c : ascii) : bool := between "a" "z" c.
Definition is_digit (c : ascii) : bool := between "0" "9" c.

(** The character class [[A-Za-z0-9]]. *)
Definition is_alnum (c : ascii) : bool :=
  is_upper_ascii c || is_lower_ascii c || is_digit c.

(** [c.lower()] on U+0000..U+00FF: the letters A-Z, and U+00C0..U+00DE
    except the multiplication sign U+00D7, move up by 32. *)
Definition lower_char (c : ascii) : ascii :=
  if is_upper_ascii c
     || ((192 <=? code c)%N && (code c <=? 222)%N && negb (code c =? 215)%N)
  then ascii_of_N (code c + 32)
  else c.

(** [s.lower()] *)
Definition lower (s : text) : text := map lower_char s.

Fixpoint lstrip (c : ascii) (s : text) : text :=
  match s with
  | x :: s' => if Ascii.eqb x c then lstrip c s' else s
  | [] => []
  end.

Definition rstrip (c : ascii) (s : text) : text := rev (lstrip c (rev s)).

(** [s.strip(c)] for a one-character set *)
Definition strip (c : ascii) (s : text) : text := rstrip c (lstrip c s).

(** [sep.join(parts)] *)
Fixpoint join (sep : text) (parts : list text) : text :=
  match parts with
  | [] => []
  | [p] => p
  | p :: rest => p ++ sep ++ join sep rest
  end.

(** [os.path.basename(p)] on POSIX: what follows the last slash. *)
Definition basename (p : text) : text := slice_from p (rfind "/" p + 1).

End Py.

(** ** Insertion-ordered dictionaries *)

Module Dict.

Section WithKey.
Context {K V : Type} (eqb : K -> K -> bool).

(** [d.get(k)] *)
Fixpoint get (k : K) (d : list (K * V)) : option V :=
  match d with
  | [] => None
  | (k', v) :: d' => if eqb k' k then Some v else get k d'
  end.

(** [d[k] = v]: an existing key keeps its position, a new key goes last. *)
Fixpoint set (k : K) (v : V) (d : list (K * V)) : list (K * V) :=
  match d with
  | [] => [(k, v)]
  | (k', v') :: d' => if eqb k' k then (k', v) :: d' else (k', v') :: set k v d'
  end.

Definition keys (d : list (K * V)) : list K := map fst d.

End WithKey.

End Dict.

(** ** The fragment of Python's [re] used by the script

    Patterns are kept as the script writes them and read by [compile].
    The fragment has literals, [\c] for a non-alphanumeric [c], [.], [^],
    [$], groups, [|] and one quantifier among [*], [+], [?] per atom;
    anything else is refused.  Matching is by derivatives, with the two
    anchors decided from the position: only whether a match exists is
    observed, which is all [re.search] is used for. *)

Module Re.

Inductive regex : Type :=
| Fail
| Eps
| Chr (c : ascii)
| Any
| Bol
| Eol
| Seq (a b : regex)
| Alt (a b : regex)
| Star (a : regex).

Definition is_quantifier (c : ascii) : bool :=
  Ascii.eqb c "*" || Ascii.eqb c "+" || Ascii.eqb c "?".

Definition quantify (q : ascii) (r : regex) : regex :=
  if Ascii.eqb q "*" then Star r
  else if Ascii.eqb q "+" then Seq r (Star r)
  else Alt r Eps.

Definition is_special (c : ascii) : bool :=
  Ascii.eqb c "[" || Ascii.eqb c "]" || Ascii.eqb c "{" || Ascii.eqb c "}"
  || is_quantifier c.

Fixpoint parse_alt (fuel : nat) (p : text) : option (regex * text) :=
  match fuel with
  | O => None
  | S fuel' =>
    match parse_seq fuel' p with
    | Some (a, ("|"%char :: p')) =>
      match parse_alt fuel' p' with
      | Some (b, rest) => Some (Alt a b, rest)
      | None => None
      end
    | other => other
    end
  end
with parse_seq (fuel : nat) (p : text) : option (regex * text) :=
  match fuel with
  | O => None
  | S fuel' =>
    match p with
    | [] => Some (Eps, p)
    | c :: _ =>
      if Ascii.eqb c "|" || Ascii.eqb c ")" then Some (Eps, p)
      else
        match parse_atom fuel' p with
        | None => None
        | Some (a, p1) =>
          let '(a', p2) :=
            match p1 with
            | q :: p1' => if is_quantifier q then (quantify q a, p1') else (a, p1)
            | [] => (a, p1)
            end in
          match p2 with
          | q :: _ =>
            if is_quantifier q then None
            else match parse_seq fuel' p2 with
                 | Some (r, rest) => Some (Seq a' r, rest)
                 | None => None
                 end
          | [] => Some (a', [])
          end
        end
    end
  end
with parse_atom (fuel : nat) (p : text) : option (regex * text) :=
  match fuel with
  | O => None
  | S fuel' =>
    match p with
    | [] => None
    | "("%char :: p' =>
      match parse_alt fuel' p' with
      | Some (r, (")"%char :: rest)) => Some (r, rest)
      | _ => None
      end
    | "\"%char :: c :: rest =>
      if Py.is_alnum c then None else Some (Chr c, rest)
    | "\"%char :: [] => None
    | "."%char :: rest => Some (Any, rest)
    | "^"%char :: rest => Some (Bol, rest)
    | "$"%char :: rest => Some (Eol, rest)
    | c :: rest => if is_special c then None else Some (Chr c, rest)
    end
  end.

(** [re.compile(p)], [None] where the pattern is outside the fragment. *)
Definition compile (p : text) : option regex :=
  match parse_alt (3 * List.length p + 3) p with
  | Some (r, []) => Some r
  | _ => None
  end.

Definition seq (a b : regex) : regex :=
  match a, b with
  | Fail, _ => Fail
  | _, Fail => Fail
  | Eps, _ => b
  | _, _ => Seq a b
  end.

Definition alt (a b : regex) : regex :=
  match a, b with
  | Fail, _ => b
  | _, Fail => a
  | _, _ => Alt a b
  end.

(** Does [r] match the empty string here?  [bol]: the position is the start
    of the subject; [eol]: it is where [$] matches. *)
Fixpoint nullable (bol eol : bool) (r : regex) : bool :=
  match r with
  | Fail | Chr _ | Any => false
  | Eps | Star _ => true
  | Bol => bol
  | Eol => eol
  | Seq a b => nullable bol eol a && nullable bol eol b
  | Alt a b => nullable bol eol a || nullable bol eol b
  end.

(** What is left of [r] after it has read [c] at this position, under
    [re.IGNORECASE]: a literal matches up to case, [.] matches anything
    but a newline. *)
Fixpoint deriv (bol eol : bool) (c : ascii) (r : regex) : regex :=
  match r with
  | Fail | Eps | Bol | Eol => Fail
  | Chr p => if Ascii.eqb (Py.lower_char p) (Py.lower_char c) then Eps else Fail
  | Any => if Ascii.eqb c "010" then Fail else Eps
  | Seq a b =>
    let d := seq (deriv bol eol c a) b in
    if nullable bol eol a then alt d (deriv bol eol c b) else d
  | Alt a b => alt (deriv bol eol c a) (deriv bol eol c b)
  | Star a => seq (deriv bol eol c a) (Star a)
  end.

(** Without [re.MULTILINE], [$] matches at the end of the subject and just
    before a newline that ends it. *)
Definition at_eol (s : text) : bool :=
  match s with
  | [] => true
  | [c] => Ascii.eqb c "010"
  | _ => false
  end.

(** [r] matches some prefix of [s]. *)
Fixpoint match_here (r : regex) (bol : bool) (s : text) : bool :=
  nullable bol (at_eol s) r
  || match s with
     | [] => false
     | c :: s' => match_here (deriv bol (at_eol s) c r) false s'
     end.

Fixpoint search_from (r : regex) (bol : bool) (s : text) : bool :=
  match_here r bol s
  || match s with
     | [] => false
     | _ :: s' => search_from r false s'
     end.

(** [bool(re.search(p, s, flags=re.IGNORECASE))] *)
Definition search (p s : text) : bool :=
  match compile p with
  | Some r => search_from r true s
  | None => false
  end.

End Re.

(** ** Utilities of the script *)

Definition text_ext : list text :=
  [ ".py" : text; ".js" : text; ".ts" : text; ".java" : text; ".go" : text;
    ".rb" : text; ".php" : text; ".cs" : text; ".cpp" : text; ".c" : text;
    ".h" : text; ".hpp" : text; ".rs" : text; ".kt" : text; ".m" : text;
    ".swift" : text; ".scala" : text; ".sql" : text; ".yaml" : text;
    ".yml" : text; ".json" : text; ".toml" : text; ".ini" : text;
    ".cfg" : text; ".md" : text; ".txt" : text; ".sh" : text; ".bash" : text;
    ".ps1" : text; ".xml" : text; ".html" : text; ".css" : text;
    ".vue" : text; ".svelte" : text; ".gradle" : text; ".properties" : text;
    ".dockerfile" : text; ".dockerignore" : text; ".gitignore" : text ].

(** [is_text_file(name)] *)
Definition is_text_file (name : text) : bool :=
  let lower := Py.lower name in
  if existsb (Py.endswith lower) text_ext then true
  else if Py.str_in (Py.basename lower)
            [ "dockerfile" : text; "makefile" : text; "procfile" : text ]
       then true
       else false.

(** ** File selection *)

(** The raw-string patterns of [sample_files_for_llm], character for
    character: in a Python raw string, as in a Rocq string, a backslash
    stands for itself. *)
Definition patterns : list text :=
  [ "(^|/)requirements\\.txt$" : text; "(^|/)pyproject\\.toml$" : text;
    "(^|/)poetry\\.lock$" : text;
    "(^|/)package\\.json$" : text; "(^|/)build\\.gradle(\\.kts)?$" : text;
    "(^|/)pom\\.xml$" : text;
    "(^|/)Dockerfile$" : text; "(^|/)docker-compose\\.ya?ml$" : text;
    "(^|/).*\\.ya?ml$" : text;
    "(^|/)Makefile$" : text; "(^|/).*settings\\.py$" : text;
    "(^|/)main\\.(py|js|ts|go|java)$" : text;
    "(^|/)app\\.(py|js|ts)$" : text; "(^|/).*init\\.py$" : text;
    "(^|/).*routes?\\.py$" : text;
    "(^|/).*controller.*\\.(py|js|ts)$" : text;
    "(^|/).*service.*\\.(py|js|ts)$" : text;
    "(^|/).*config.*\\.(py|js|ts|yaml|yml)$" : text ].

(** The two nested loops that fill [priority]: for each pattern in turn,
    every file it matches, in tree order. *)
Definition priority_of (pats files : list text) : list text :=
  flat_map (fun p => filter (fun f => Re.search p f) files) pats.

Definition remainder_of (files priority : list text) : list text :=
  filter (fun f => negb (Py.str_in f priority) && is_text_file f) files.

(** [list(dict.fromkeys(l))] *)
Definition fromkeys (l : list text) : list (text * unit) :=
  fold_left (fun d k => Dict.set Py.str_eqb k tt d) l [].

Definition candidates (files : list text) : list text :=
  let priority := priority_of patterns files in
  priority ++ remainder_of files priority.

(** [sample_files_for_llm(files, limit)] *)
Definition sample_files_for_llm (files : list text) (limit : Z) : list text :=
  Py.slice_to (Dict.keys (fromkeys (candidates files))) limit.

(** ** Mind-map identifiers *)

(** [re.sub(r'[^A-Za-z0-9]+', '_', s)]: the greedy [+] takes each maximal
    run of characters outside the class, and each run becomes one
    underscore.  [in_run] tells that the previous character was already
    replaced. *)
Fixpoint sub_non_alnum (in_run : bool) (s : text) : text :=
  match s with
  | [] => []
  | c :: s' =>
    if Py.is_alnum c then c :: sub_non_alnum false s'
    else if in_run then sub_non_alnum true s'
         else "_"%char :: sub_non_alnum true s'
  end.

(** The lambda [norm] of [emit_mermaid_mindmap]. *)
Definition norm (s : text) : text :=
  match Py.strip "_" (sub_non_alnum false (Py.lower s)) with
  | [] => "node" : text
  | slug => slug
  end.

(** ** [json.loads]

    The decoder of Python's standard library, as far as the script can
    observe it: which texts it accepts and the value it builds.  A number
    is kept as its literal, an object is the dictionary Python builds (a
    repeated key keeps its first position and its last value).  The limits
    of the interpreter (recursion depth, digits of an integer) are not
    modelled. *)

Module Json.

Definition ustring := list N.

#[local] Set Warnings "-register-all".

Inductive value : Type :=
| JNull
| JBool (b : bool)
| JNumber (literal : text)
| JNaN
| JInfinity (negative : bool)
| JString (s : ustring)
| JArray (items : list value)
| JObject (members : list (ustring * value)).

Definition ustr_eqb (a b : ustring) : bool := Py.list_eqb N.eqb a b.

(** The code points of a text. *)
Definition U (s : text) : ustring := map Py.code s.

Definition is_ws (c : ascii) : bool :=
  Ascii.eqb c " " || Ascii.eqb c "009" || Ascii.eqb c "010" || Ascii.eqb c "013".

Fixpoint skip_ws (s : text) : text :=
  match s with
  | c :: s' => if is_ws c then skip_ws s' else s
  | [] => []
  end.

Definition hex_val (c : ascii) : option N :=
  if Py.is_digit c then Some (Py.code c - 48)%N
  else if Py.between "a" "f" c then Some (Py.code c - 87)%N
  else if Py.between "A" "F" c then Some (Py.code c - 55)%N
  else None.

Definition hex4 (a b c d : ascii) : option N :=
  match hex_val a, hex_val b, hex_val c, hex_val d with
  | Some x, Some y, Some z, Some w => Some (((x * 16 + y) * 16 + z) * 16 + w)%N
  | _, _, _, _ => None
  end.

Definition is_high_surrogate (u : N) : bool := (55296 <=? u)%N && (u <=? 56319)%N.
Definition is_low_surrogate (u : N) : bool := (56320 <=? u)%N && (u <=? 57343)%N.

Definition join_surrogates (hi lo : N) : N :=
  (65536 + ((hi - 55296) * 1024 + (lo - 56320)))%N.

Definition simple_escape (c : ascii) : option N :=
  if Ascii.eqb c "034" then Some 34%N
  else if Ascii.eqb c "\" then Some 92%N
  else if Ascii.eqb c "/" then Some 47%N
  else if Ascii.eqb c "b" then Some 8%N
  else if Ascii.eqb c "f" then Some 12%N
  else if Ascii.eqb c "n" then Some 10%N
  else if Ascii.eqb c "r" then Some 13%N
  else if Ascii.eqb c "t" then Some 9%N
  else None.

Definition push (u : N) (r : option (ustring * text)) : option (ustring * text) :=
  match r with
  | Some (us, rest) => Some (u :: us, rest)
  | None => None
  end.

(** The body of a string after its opening quote, in strict mode: control
    characters are refused, a high surrogate escape directly followed by a
    low surrogate escape is one code point. *)
Fixpoint scan_string (s : text) : option (ustring * text) :=
  match s with
  | [] => None
  | c :: s1 =>
    if Ascii.eqb c "034" then Some ([], s1)
    else if Ascii.eqb c "\" then
      match s1 with
      | [] => None
      | e :: s2 =>
        if Ascii.eqb e "u" then
          match s2 with
          | h1 :: h2 :: h3 :: h4 :: s3 =>
            match hex4 h1 h2 h3 h4 with
            | None => None
            | Some u =>
              match s3 with
              | b :: v :: l1 :: l2 :: l3 :: l4 :: s4 =>
                if is_high_surrogate u && Ascii.eqb b "\" && Ascii.eqb v "u" then
                  match hex4 l1 l2 l3 l4 with
                  | None => None
                  | Some u2 =>
                    if is_low_surrogate u2
                    then push (join_surrogates u u2) (scan_string s4)
                    else push u (scan_string s3)
                  end
                else push u (scan_string s3)
              | _ => push u (scan_string s3)
              end
            end
          | _ => None
          end
        else
          match simple_escape e with
          | Some u => push u (scan_string s2)
          | None => None
          end
      end
    else if (Py.code c <=? 31)%N then None
    else push (Py.code c) (scan_string s1)
  end.

Fixpoint span_digits (s : text) : text * text :=
  match s with
  | c :: s' =>
    if Py.is_digit c then let '(ds, rest) := span_digits s' in (c :: ds, rest)
    else ([], s)
  | [] => ([], [])
  end.

(** The integer part: [0], or a non-zero digit and more digits. *)
Definition scan_int (s : text) : option (text * text) :=
  match s with
  | c :: s' =>
    if Ascii.eqb c "0" then Some ([c], s')
    else if Py.is_digit c then let '(ds, rest) := span_digits s' in Some (c :: ds, rest)
    else None
  | [] => None
  end.

(** An optional fraction: a dot and at least one digit. *)
Definition scan_frac (s : text) : text * text :=
  match s with
  | dot :: d :: s' =>
    if Ascii.eqb dot "." && Py.is_digit d
    then let '(ds, rest) := span_digits s' in (dot :: d :: ds, rest)
    else ([], s)
  | _ => ([], s)
  end.

(** An optional exponent: [e] or [E], an optional sign, at least one digit. *)
Definition scan_exp (s : text) : text * text :=
  match s with
  | e :: s1 =>
    if Ascii.eqb e "e" || Ascii.eqb e "E" then
      match s1 with
      | d :: s2 =>
        if Py.is_digit d then let '(ds, rest) := span_digits s2 in (e :: d :: ds, rest)
        else if Ascii.eqb d "+" || Ascii.eqb d "-" then
          match s2 with
          | d' :: s3 =>
            if Py.is_digit d'
            then let '(ds, rest) := span_digits s3 in (e :: d :: d' :: ds, rest)
            else ([], s)
          | [] => ([], s)
          end
        else ([], s)
      | [] => ([], s)
      end
    else ([], s)
  | [] => ([], s)
  end.

Definition scan_number (s : text) : option (text * text) :=
  let '(sign, s0) :=
    match s with
    | c :: s' => if Ascii.eqb c "-" then ([c], s') else ([], s)
    | [] => ([], s)
    end in
  match scan_int s0 with
  | None => None
  | Some (int, s1) =>
    let '(frac, s2) := scan_frac s1 in
    let '(exp, s3) := scan_exp s2 in
    Some (sign ++ int ++ frac ++ exp, s3)
  end.

(** A named constant at the head of the text. *)
Definition scan_constant (s : text) : option (value * text) :=
  let after (w : text) := skipn (List.length w) s in
  if Py.startswith s "null" then Some (JNull, after "null")
  else if Py.startswith s "true" then Some (JBool true, after "true")
  else if Py.startswith s "false" then Some (JBool false, after "false")
  else if Py.startswith s "NaN" then Some (JNaN, after "NaN")
  else if Py.startswith s "Infinity" then Some (JInfinity false, after "Infinity")
  else if Py.startswith s "-Infinity" then Some (JInfinity true, after "-Infinity")
  else None.

(** One value at the head of the text.  Each call consumes a character or
    hands over to a call that does, so the fuel [loads] gives is enough. *)
Fixpoint parse_value (fuel : nat) (s : text) : option (value * text) :=
  match fuel with
  | O => None
  | S fuel' =>
    match s with
    | [] => None
    | c :: s' =>
      if Ascii.eqb c "034" then
        match scan_string s' with
        | Some (u, rest) => Some (JString u, rest)
        | None => None
        end
      else if Ascii.eqb c "{" then
        match skip_ws s' with
        | c' :: rest =>
          if Ascii.eqb c' "}" then Some (JObject [], rest)
          else parse_members fuel' (skip_ws s') []
        | [] => None
        end
      else if Ascii.eqb c "[" then
        match skip_ws s' with
        | c' :: rest =>
          if Ascii.eqb c' "]" then Some (JArray [], rest)
          else parse_elements fuel' (skip_ws s') []
        | [] => None
        end
      else
        match scan_constant s with
        | Some r => Some r
        | None =>
          match scan_number s with
          | Some (lit, rest) => Some (JNumber lit, rest)
          | None => None
          end
        end
    end
  end
with parse_members (fuel : nat) (s : text) (acc : list (ustring * value))
  : option (value * text) :=
  match fuel with
  | O => None
  | S fuel' =>
    match s with
    | c :: s1 =>
      if Ascii.eqb c "034" then
        match scan_string s1 with
        | None => None
        | Some (key, s2) =>
          match skip_ws s2 with
          | colon :: s3 =>
            if Ascii.eqb colon ":" then
              match parse_value fuel' (skip_ws s3) with
              | None => None
              | Some (v, s4) =>
                let acc' := Dict.set ustr_eqb key v acc in
                match skip_ws s4 with
                | d :: s5 =>
                  if Ascii.eqb d "}" then Some (JObject acc', s5)
                  else if Ascii.eqb d "," then parse_members fuel' (skip_ws s5) acc'
                  else None
                | [] => None
                end
              end
            else None
          | [] => None
          end
        end
      else None
    | [] => None
    end
  end
with parse_elements (fuel : nat) (s : text) (acc : list value)
  : option (value * text) :=
  match fuel with
  | O => None
  | S fuel' =>
    match parse_value fuel' s with
    | None => None
    | Some (v, s1) =>
      match skip_ws s1 with
      | d :: s2 =>
        if Ascii.eqb d "]" then Some (JArray (acc ++ [v]), s2)
        else if Ascii.eqb d "," then parse_elements fuel' (skip_ws s2) (acc ++ [v])
        else None
      | [] => None
      end
    end
  end.

(** [json.loads(s)]: one value, with white space around it and nothing
    else; [None] where Python raises. *)
Definition loads (s : text) : option value :=
  match parse_value (2 * List.length s + 2) (skip_ws s) with
  | Some (v, rest) =>
    match skip_ws rest with
    | [] => Some v
    | _ :: _ => None
    end
  | None => None
  end.

(** [d.get(k)] on a decoded value; [None] when the key is absent. *)
Definition get (k : text) (v : value) : option value :=
  match v with
  | JObject d => Dict.get ustr_eqb (U k) d
  | _ => None
  end.

End Json.

(** ** The repository client *)

Module GitLabRepo.

(** One entry of [repository_tree]: the keys [path] and [type] the script
    reads. *)
Record entry : Type := { path : text; type : text }.

Section Client.

(** The provider and the environment: the page that
    [repository_tree(..., per_page=100, page=n)] answers with, the safety
    cap [MAX_FILES], the base64 payload of [files.get] ([None] where it
    raises), [base64.b64decode] ([None] where it raises) and
    [bytes.decode("utf-8", errors="ignore")], which never raises. *)
Variable repository_tree : Z -> list entry.
Variable MAX_FILES : Z.
Variable files_get : text -> option text.
Variable b64decode : text -> option (list Byte.byte).
Variable decode_utf8_ignore : list Byte.byte -> text.

(** The loop of [walk_tree], one iteration per unit of fuel; [None] when
    the fuel runs out before the loop breaks.  The result carries the
    number of the last page requested, which is the number of requests. *)
Fixpoint walk_loop (fuel : nat) (items : list entry) (page : Z)
  : option (list entry * Z) :=
  match fuel with
  | O => None
  | S fuel' =>
    let chunk := repository_tree page in
    match chunk with
    | [] => Some (items, page)
    | _ :: _ =>
      let items' := items ++ chunk in
      if Py.len items' >=? MAX_FILES then Some (items', page)
      else walk_loop fuel' items' (page + 1)
    end
  end.

(** [walk_tree(branch)] run for at most [fuel] iterations. *)
Definition walk_tree (fuel : nat) : option (list entry) :=
  match walk_loop fuel [] 1 with
  | Some (items, _) => Some items
  | None => None
  end.

(** [get_file(file_path, ref)]: every exception becomes [None]. *)
Definition get_file (file_path : text) : option text :=
  match files_get file_path with
  | None => None
  | Some payload =>
    match b64decode payload with
    | None => None
    | Some bytes => Some (decode_utf8_ignore bytes)
    end
  end.

End Client.

End GitLabRepo.

(** ** The analyzer *)

Module AzureOpenAIAnalyzer.

Import Json.

Definition LF : ascii := "010"%char.
Definition DQ : ascii := "034"%char.

Definition line (s : text) : text := s ++ [LF].
Definition quoted (s : text) : text := DQ :: s ++ [DQ].

(** The [instructions] literal. *)
Definition instructions : text :=
  line "You are an expert software architect. From the provided project summary and code snippets, produce:"
  ++ line "1) C1 Context: external actors and systems; concise bullet list."
  ++ line "2) C2 Containers: list containers/apps/data stores, responsibilities, technologies; bullet list."
  ++ line "3) C3 Components: per container, key components and relationships; bullet list."
  ++ line "4) C4 Code-level notes: modules/classes/functions that form critical paths; bullet list."
  ++ line "5) Mind map plan: root name, main branches, and edges as pairs for a Mermaid mindmap."
  ++ "Return strict JSON with fields: {" ++ quoted "c1" ++ ":..., "
  ++ quoted "c2" ++ ":..., " ++ quoted "c3" ++ ":..., " ++ quoted "c4" ++ ":..., "
  ++ quoted "mindmap" ++ ": {" ++ quoted "root" ++ ": str, "
  ++ quoted "branches" ++ ": [str], " ++ quoted "edges" ++ ": [[str,str], ...]}, "
  ++ quoted "narrative" ++ ": str}.".

(** The cap on the characters counted during request assembly, and the
    budget of one file. *)
Definition limit : Z := 12000.
Definition per_file : Z := 3000.

(** The string appended to [snippet_pairs] for one file: its path under a
    heading and six back-quotes.  The text [short] is not part of it. *)
Definition snippet (path : text) : text :=
  LF :: "### " ++ path ++ LF :: "``````".

(** The loop over [sampled_files.items()], from the state [used],
    [snippet_pairs]. *)
Fixpoint snippet_loop (items : list (text * text)) (used : Z)
         (snippet_pairs : list text) : list text :=
  match items with
  | [] => snippet_pairs
  | (path, txt) :: rest =>
    if used >? limit then snippet_pairs
    else
      let short := Py.slice_to txt per_file in
      snippet_loop rest (used + Py.len short) (snippet_pairs ++ [snippet path])
  end.

Definition snippet_pairs (sampled_files : list (text * text)) : list text :=
  snippet_loop sampled_files 0 [].

Definition files_list (sampled_files : list (text * text)) : text :=
  Py.join [LF] (map (fun p => "- " ++ p) (Dict.keys sampled_files)).

(** The f-string [input_text]. *)
Definition input_text (project_summary : text)
           (sampled_files : list (text * text)) : text :=
  [LF] ++ line "PROJECT SUMMARY:"
  ++ line project_summary
  ++ [LF] ++ line "FILES INCLUDED:"
  ++ line (files_list sampled_files)
  ++ [LF] ++ line "SNIPPETS:"
  ++ line (Py.join [] (snippet_pairs sampled_files)).

(** One entry of the [input] array. *)
Record message : Type := { role : text; content : text }.

(** What the script reads of a response: [output_text] ([None] when the
    attribute is missing or is [None]) and [output[0].content[0].text]
    ([None] when evaluating it raises). *)
Record response : Type :=
  { output_text : option text; output_first_text : option text }.

Definition extract_text (r : response) : text :=
  match output_text r with
  | Some (c :: o) => c :: o
  | _ =>
    match output_first_text r with
    | Some t => t
    | None => []
    end
  end.

(** The dictionary returned from the [except] branch. *)
Definition degraded (out : text) : value :=
  JObject
    [ (U "c1", JString (U "Parsing error; see narrative."));
      (U "c2", JString []);
      (U "c3", JString []);
      (U "c4", JString []);
      (U "mindmap",
       JObject [ (U "root", JString (U "Project"));
                 (U "branches", JArray []);
                 (U "edges", JArray []) ]);
      (U "narrative", JString (U (Py.slice_to out 4000))) ].

(** The text handed to [json.loads]: [out[start:end+1]]. *)
Definition braces (out : text) : text :=
  let start := Py.find "{" out in
  let end_ := Py.rfind "}" out in
  Py.slice out start (end_ + 1).

(** The [try]/[except] that ends [analyze]. *)
Definition parse_output (out : text) : value :=
  match loads (braces out) with
  | Some parsed => parsed
  | None => degraded out
  end.

(** [analyze(project_summary, sampled_files)], given the endpoint as the
    function [create] from the [input] array to the response. *)
Definition input (project_summary : text) (sampled_files : list (text * text))
  : list message :=
  [ {| role := "system"; content := instructions |};
    {| role := "user"; content := input_text project_summary sampled_files |} ].

Definition analyze (create : list message -> response)
           (project_summary : text) (sampled_files : list (text * text)) : value :=
  let response := create (input project_summary sampled_files) in
  parse_output (extract_text response).

End AzureOpenAIAnalyzer.

(** ** The orchestration *)

Section Main.

Variable get_file : text -> option text.

(** The loop of [main] that fills [contents]. *)
Fixpoint pull_contents (selected : list text) (contents : list (text * text))
  : list (text * text) :=
  match selected with
  | [] => contents
  | path :: rest =>
    if negb (is_text_file path) then pull_contents rest contents
    else
      match get_file path with
      | Some (c :: txt) =>
        pull_contents rest (Dict.set Py.str_eqb path (c :: txt) contents)
      | _ => pull_contents rest contents
      end
  end.

End Main.

(** [analysis.get(key, default)] with the empty string as default, as
    [main] reads the note fields and the narrative. *)
Definition read_field (analysis : Json.value) (key : text) : Json.value :=
  match Json.get key analysis with
  | Some v => v
  | None => Json.JString []
  end.

(** ** Reference definitions used in the statements *)

(** First-seen order: each element once, at the place of its first
    occurrence. *)
Fixpoint first_seen (l : list text) : list text :=
  match l with
  | [] => []
  | x :: l' => x :: filter (fun y => negb (Py.str_eqb y x)) (first_seen l')
  end.

(** The characters counted for a list of sampled files: each file counts
    for the length of its first [per_file] characters. *)
Fixpoint used_chars (items : list (text * text)) : Z :=
  match items with
  | [] => 0
  | (_, txt) :: rest =>
    Py.len (Py.slice_to txt AzureOpenAIAnalyzer.per_file) + used_chars rest
  end.

(** The entries of the pages [1] to [n]. *)
Definition pages_upto (repository_tree : Z -> list GitLabRepo.entry) (n : nat)
  : list GitLabRepo.entry :=
  flat_map (fun k => repository_tree (Z.of_nat k)) (seq 1 n).

(** What the loop of [main] is to add: a selected path that is a text file
    and whose content was fetched and is not empty. *)
Definition pulled (get_file : text -> option text) (selected : list text)
           (e : text * text) : Prop :=
  In (fst e) selected /\ is_text_file (fst e) = true
  /\ get_file (fst e) = Some (snd e) /\ snd e <> [].

(** The five string fields of a structured answer. *)
Definition string_fields : list text :=
  [ "c1" : text; "c2" : text; "c3" : text; "c4" : text; "narrative" : text ].

(** ** Sample inputs *)

Module Sample.

Import AzureOpenAIAnalyzer.

(** A tree of five files, the manifest in third place. *)
Definition tree_with_manifest : list text :=
  [ "src/a.py" : text; "src/b.py" : text; "requirements.txt" : text;
    "src/c.py" : text; "src/d.py" : text ].

Definition tree_with_dockerfile : list text :=
  [ "src/a.py" : text; "src/b.py" : text; "Dockerfile" : text;
    "src/c.py" : text; "src/d.py" : text ].

(** An endpoint that always answers with the same text. *)
Definition answering (out : text) : list message -> response :=
  fun _ => {| output_text := Some out; output_first_text := None |}.



(** A file of [n] characters. *)
Definition file_of (path : text) (n : nat) : text * text :=
  (path, repeat "x"%char n).

Definition four_full_files : list (text * text) :=
  [ file_of "a.py" 3000; file_of "b.py" 5000; file_of "c.py" 3000;
    file_of "d.py" 3000 ].

(** A provider with two full pages of a hundred entries and nothing more. *)
Definition blob (n : nat) : GitLabRepo.entry :=
  {| GitLabRepo.path := repeat "f"%char n; GitLabRepo.type := "blob" |}.

Definition two_full_pages (page : Z) : list GitLabRepo.entry :=
  if (1 <=? page) && (page <=? 2) then map blob (seq 1 100) else [].

(** A provider whose files are [a.py] (with content), [b.py] (empty),
    [c.py] (not found) and [logo.png]. *)
Definition files_get (path : text) : option text :=
  if Py.str_eqb path "a.py" then Some ("cHJpbnQoMSk=" : text)
  else if Py.str_eqb path "b.py" then Some ([] : text)
  else if Py.str_eqb path "logo.png" then Some ("iVBORw==" : text)
  else None.

(** A stand-in for the two decoders, enough to run the loop of [main] on
    the payloads above. *)
Definition b64decode (payload : text) : option (list Byte.byte) :=
  if Py.str_eqb payload "cHJpbnQoMSk=" then Some (map byte_of_ascii ("print(1)" : text))
  else if Py.str_eqb payload [] then Some []
  else None.

Definition decode_utf8_ignore (bytes : list Byte.byte) : text :=
  map ascii_of_byte bytes.

End Sample.

(** The identifier alphabet: lower-case letters, digits, underscore. *)
Definition is_ident_char (c : ascii) : bool :=
  Py.is_lower_ascii c || Py.is_digit c || Ascii.eqb c "_".

(** ** More of the script *)

(** *** Environment and paths *)

(** How a call of the script ends: it returns, or it leaves through
    [sys.exit] after a message on the standard error. *)
Inductive outcome : Type :=
| Returns
| Exits (status : Z) (stderr : text).

Definition required_env : list text :=
  [ "GITLAB_PROJECT_ID" : text; "GITLAB_TOKEN" : text;
    "AZURE_OPENAI_ENDPOINT" : text; "AZURE_OPENAI_API_KEY" : text;
    "AZURE_OPENAI_DEPLOYMENT" : text ].

(** [not os.getenv(k)]: the variable is absent or empty. *)
Definition unset (getenv : text -> option text) (k : text) : bool :=
  match getenv k with
  | Some (_ :: _) => false
  | _ => true
  end.

(** [ensure_env()] *)
Definition ensure_env (getenv : text -> option text) : outcome :=
  let missing := filter (unset getenv) required_env in
  match missing with
  | [] => Returns
  | _ :: _ =>
    Exits 1 ("Missing required environment variables: "
             ++ Py.join ", " missing ++ ["010"%char])
  end.

(** The characters [str.strip()] removes, on U+0000..U+00FF. *)
Definition is_space (c : ascii) : bool :=
  let n := Py.code c in
  ((9 <=? n)%N && (n <=? 13)%N) || ((28 <=? n)%N && (n <=? 32)%N)
  || (n =? 133)%N || (n =? 160)%N.

Fixpoint lstrip_space (s : text) : text :=
  match s with
  | x :: s' => if is_space x then lstrip_space s' else s
  | [] => []
  end.

(** [s.strip()] *)
Definition strip_space (s : text) : text :=
  rev (lstrip_space (rev (lstrip_space s))).

(** [sanitize_path(p)] *)
Definition sanitize_path (p : text) : text :=
  Py.lstrip "/" (strip_space p).

(** *** Diagram emitters *)








Module Mindmap.

(** The first element of [lines], as the literal stands in the file,
    where it runs over three lines. *)
Definition fence_open : text :=
  "```" ++ ["010"%char] ++ "mermaid" ++ ["010"%char] ++ "mindmap".

Definition fence_close : text := "```".

(** The line that declares a node, and the line that links two nodes. *)
Definition declaration (id name : text) : text :=
  "    " ++ id ++ "(" ++ name ++ ")".

Definition link (a b : text) : text := "  " ++ a ++ " --> " ++ b.

(** [k in bmap] and [bmap.get(k, default)] *)
Definition has (bmap : list (text * text)) (k : text) : bool :=
  Py.str_in k (Dict.keys bmap).

Definition get_or (bmap : list (text * text)) (k default : text) : text :=
  match Dict.get Py.str_eqb k bmap with
  | Some v => v
  | None => default
  end.

(** The loop over [branches], from the state [bmap], [lines]. *)
Fixpoint branch_loop (branches : list text) (bmap : list (text * text))
         (lines : list text) : list (text * text) * list text :=
  match branches with
  | [] => (bmap, lines)
  | b :: rest =>
    let bid := norm b in
    branch_loop rest (Dict.set Py.str_eqb b bid bmap)
                (lines ++ [declaration bid b; link "root" bid])
  end.

(** The loop over [edges]. *)
Fixpoint edge_loop (edges : list (text * text)) (bmap : list (text * text))
         (lines : list text) : list text :=
  match edges with
  | [] => lines
  | (a, b) :: rest =>
    let aid := get_or bmap a (norm a) in
    let bid := get_or bmap b (norm b) in
    let '(lines1, bmap1) :=
      if negb (has bmap a)
      then (lines ++ [declaration aid a; link "root" aid],
            Dict.set Py.str_eqb a aid bmap)
      else (lines, bmap) in
    let lines2 :=
      if negb (has bmap1 b)
      then lines1 ++ [declaration bid b; link aid bid]
      else lines1 ++ [link aid bid] in
    edge_loop rest bmap1 lines2
  end.

(** [emit_mermaid_mindmap(root, branches, edges)] *)
Definition emit_mermaid_mindmap (root : text) (branches : list text)
           (edges : list (text * text)) : text :=
  let '(bmap, lines) := branch_loop branches [] [fence_open] in
  let lines := edge_loop edges bmap lines in
  Py.join ["010"%char] (lines ++ [fence_close]).

(** The lines the two loops are to give, written without the dictionary:
    every identifier is the slug of its name, and [known] lists the names
    that count as declared. *)
Definition branch_lines (branches : list text) : list text :=
  flat_map (fun b => [declaration (norm b) b; link "root" (norm b)]) branches.

Fixpoint edge_lines (known : list text) (edges : list (text * text)) : list text :=
  match edges with
  | [] => []
  | (a, b) :: rest =>
    (if Py.str_in a known then []
     else [declaration (norm a) a; link "root" (norm a)])
    ++ (if Py.str_in b (a :: known) then []
        else [declaration (norm b) b])
    ++ [link (norm a) (norm b)]
    ++ edge_lines (a :: known) rest
  end.

End Mindmap.

(** The invariant of [bmap]: every identifier stored is the slug of its
    name. *)
Definition slugs_only (bmap : list (text * text)) : Prop :=
  forall k v, Dict.get Py.str_eqb k bmap = Some v -> v = norm k.

(** *** The report *)





(** *** From the tree to the sampled contents *)

(** The list [files] of [summarize_tree]: the paths of the blobs. *)
Definition blob_paths (tree : list GitLabRepo.entry) : list text :=
  map GitLabRepo.path
      (filter (fun t => Py.str_eqb (GitLabRepo.type t) "blob") tree).

(** The steps of [main] from the tree to [contents]. *)
Definition main_contents (get_file : text -> option text)
           (tree : list GitLabRepo.entry) : list (text * text) :=
  let files := blob_paths tree in
  let selected := sample_files_for_llm files 40 in
  pull_contents get_file selected [].

(** What one selected path adds to [contents]. *)
Definition kept (get_file : text -> option text) (path : text)
  : list (text * text) :=
  if is_text_file path then
    match get_file path with
    | Some (c :: txt) => [(path, c :: txt)]
    | _ => []
    end
  else [].

(** Whether some pattern matches the path. *)
Definition matches_rule (f : text) : bool :=
  existsb (fun p => Re.search p f) patterns.

(** Whether every text the expression matches holds the character [c]
    (up to case), decided on the syntax. *)
Fixpoint needs (c : ascii) (r : Re.regex) : bool :=
  match r with
  | Re.Fail => true
  | Re.Chr p => Ascii.eqb (Py.lower_char p) (Py.lower_char c)
  | Re.Seq a b => needs c a || needs c b
  | Re.Alt a b => needs c a && needs c b
  | _ => false
  end.

(** ** The models on concrete inputs *)

Example slice_negative_start : Py.slice "hello" (-1) 3 = [].
Proof. reflexivity. Qed.

Example slice_negative_stop : Py.slice_to "hello" (-1) = list_ascii_of_string "hell".
Proof. reflexivity. Qed.

Example find_missing : Py.find "{" "no brace" = -1 /\ Py.rfind "}" "a}b}c" = 3.
Proof. split; reflexivity. Qed.

Example basename_of_path :
  Py.basename "docker/Dockerfile" = list_ascii_of_string "Dockerfile".
Proof. reflexivity. Qed.

(** Every pattern of the script is in the fragment that [Re.compile] reads. *)
Lemma patterns_compile :
  forallb (fun p => match Re.compile p with Some _ => true | None => false end)
          patterns = true.
Proof. vm_compute. reflexivity. Qed.

Example search_anchored_name :
  Re.search "(^|/)Dockerfile$" "docker/dockerfile" = true
  /\ Re.search "(^|/)Dockerfile$" "my-Dockerfile" = false
  /\ Re.search "(^|/)Dockerfile$" "Dockerfile.dev" = false.
Proof. repeat split; vm_compute; reflexivity. Qed.

(** What the doubled backslash asks for: a backslash, then any character. *)
Example search_escaped_backslash :
  Re.search "(^|/)requirements\\.txt$" "requirements.txt" = false
  /\ Re.search "(^|/)requirements\\.txt$" "requirements\.txt" = true
  /\ Re.search "(^|/)requirements\\.txt$" "requirements\-txt" = true.
Proof. repeat split; vm_compute; reflexivity. Qed.

Example text_files :
  map is_text_file
      [ "src/App.PY" : text; "Makefile" : text; "logo.png" : text;
        "requirements.txt" : text ]
  = [ true; true; false; true ].
Proof. vm_compute. reflexivity. Qed.

Example loads_values :
  Json.loads "[1, -2.5e3, true, null, {}]"
  = Some (Json.JArray [ Json.JNumber "1"; Json.JNumber "-2.5e3";
                        Json.JBool true; Json.JNull; Json.JObject [] ]).
Proof. vm_compute. reflexivity. Qed.

Example loads_rejects :
  map Json.loads [ "" : text; "{" : text; "[1,]" : text; "01" : text;
                   "{} x" : text; "{'a': 1}" : text ]
  = [ None; None; None; None; None; None ].
Proof. vm_compute. reflexivity. Qed.

Example norm_values :
  map norm [ "Hello, World!" : text; "__API--v2__" : text; "?!" : text; "" : text ]
  = [ "hello_world" : text; "api_v2" : text; "node" : text; "node" : text ].
Proof. vm_compute. reflexivity. Qed.

(** ** Sequences and strings: lemmas *)

Lemma len_nonneg {A : Type} (s : list A) : 0 <= Py.len s.
Proof. unfold Py.len. lia. Qed.

Lemma len_app {A : Type} (a b : list A) : Py.len (a ++ b) = Py.len a + Py.len b.
Proof. unfold Py.len. rewrite length_app. lia. Qed.

Lemma len_cons {A : Type} (x : A) (s : list A) : Py.len (x :: s) = 1 + Py.len s.
Proof. unfold Py.len. simpl List.length. lia. Qed.

Lemma slice_to_nonneg {A : Type} (s : list A) (hi : Z) :
  0 <= hi -> Py.slice_to s hi = firstn (Z.to_nat hi) s.
Proof.
  intros Hhi. unfold Py.slice_to, Py.slice, Py.clamp.
  pose proof (len_nonneg s) as Hn.
  replace (0 <? 0) with false by reflexivity.
  destruct (hi <? 0) eqn:E; [apply Z.ltb_lt in E; lia|].
  replace (Z.min 0 (Py.len s)) with 0 by lia.
  simpl skipn. rewrite Z.sub_0_r.
  destruct (Z.le_gt_cases hi (Py.len s)) as [Hle | Hgt].
  - rewrite Z.min_l by lia. reflexivity.
  - rewrite Z.min_r by lia. unfold Py.len in *.
    rewrite Nat2Z.id. rewrite firstn_all.
    symmetry. apply firstn_all2. lia.
Qed.

Lemma len_slice_to {A : Type} (s : list A) (hi : Z) :
  0 <= hi -> Py.len (Py.slice_to s hi) = Z.min hi (Py.len s).
Proof.
  intros Hhi. rewrite slice_to_nonneg by assumption.
  unfold Py.len. rewrite length_firstn. lia.
Qed.

Lemma str_eqb_eq (a b : text) : Py.str_eqb a b = true <-> a = b.
Proof.
  unfold Py.str_eqb. revert b.
  induction a as [|x a IH]; intros [|y b]; simpl; split; intros H;
    try reflexivity; try discriminate.
  - apply andb_true_iff in H as [Hxy Hab].
    apply Ascii.eqb_eq in Hxy. apply IH in Hab. congruence.
  - injection H as -> ->. rewrite Ascii.eqb_refl. simpl. apply IH. reflexivity.
Qed.

Lemma str_eqb_refl (a : text) : Py.str_eqb a a = true.
Proof. apply str_eqb_eq. reflexivity. Qed.

Lemma str_eqb_neq (a b : text) : Py.str_eqb a b = false <-> a <> b.
Proof.
  split.
  - intros H E. apply str_eqb_eq in E. congruence.
  - intros H. destruct (Py.str_eqb a b) eqn:E; [|reflexivity].
    apply str_eqb_eq in E. contradiction.
Qed.

Lemma str_eqb_sym (a b : text) : Py.str_eqb a b = Py.str_eqb b a.
Proof.
  destruct (Py.str_eqb a b) eqn:E1, (Py.str_eqb b a) eqn:E2; try reflexivity.
  - apply str_eqb_eq in E1. subst. rewrite str_eqb_refl in E2. discriminate.
  - apply str_eqb_eq in E2. subst. rewrite str_eqb_refl in E1. discriminate.
Qed.

Lemma str_in_In (x : text) (l : list text) : Py.str_in x l = true <-> In x l.
Proof.
  unfold Py.str_in. rewrite existsb_exists. split.
  - intros [y [Hy E]]. apply str_eqb_eq in E. subst. assumption.
  - intros H. exists x. split; [assumption | apply str_eqb_refl].
Qed.


(** ** Dictionaries keyed by strings: lemmas *)

Lemma keys_set {V : Type} (k : text) (v : V) (d : list (text * V)) :
  Dict.keys (Dict.set Py.str_eqb k v d)
  = if Py.str_in k (Dict.keys d) then Dict.keys d else Dict.keys d ++ [k].
Proof.
  unfold Dict.keys, Py.str_in.
  induction d as [|[k' v'] d IH]; simpl; [reflexivity|].
  rewrite (str_eqb_sym k k').
  destruct (Py.str_eqb k' k) eqn:E; simpl; [reflexivity|].
  rewrite IH.
  destruct (existsb (Py.str_eqb k) (map fst d)); reflexivity.
Qed.


Lemma In_set {V : Type} (k : text) (v : V) (d : list (text * V)) (e : text * V) :
  In e (Dict.set Py.str_eqb k v d) -> e = (k, v) \/ In e d.
Proof.
  induction d as [|[k' v'] d IH]; simpl.
  - intros [H | []]. left. symmetry. exact H.
  - destruct (Py.str_eqb k' k) eqn:E; simpl.
    + apply str_eqb_eq in E. subst k'. intros [H | H].
      * left. symmetry. exact H.
      * right. right. exact H.
    + intros [H | H].
      * right. left. exact H.
      * apply IH in H as [H | H]; [left | right; right]; exact H.
Qed.

Lemma set_In_same {V : Type} (k : text) (v : V) (d : list (text * V)) :
  ~ In k (Dict.keys d) -> In (k, v) (Dict.set Py.str_eqb k v d).
Proof.
  induction d as [|[k' v'] d IH]; simpl; intros Hk.
  - left. reflexivity.
  - destruct (Py.str_eqb k' k) eqn:E.
    + apply str_eqb_eq in E. subst. exfalso. apply Hk. left. reflexivity.
    + right. apply IH. intros H. apply Hk. right. exact H.
Qed.

Lemma set_In_other {V : Type} (k : text) (v : V) (d : list (text * V)) (e : text * V) :
  In e d -> fst e <> k -> In e (Dict.set Py.str_eqb k v d).
Proof.
  induction d as [|[k' v'] d IH]; simpl; intros He Hne; [contradiction|].
  destruct He as [He | He].
  - subst e. simpl in Hne. apply str_eqb_neq in Hne. rewrite Hne. left. reflexivity.
  - destruct (Py.str_eqb k' k); right; [exact He | apply IH; assumption].
Qed.

(** ** File selection: lemmas *)

Lemma filter_filter {A : Type} (f g : A -> bool) (l : list A) :
  filter f (filter g l) = filter (fun x => g x && f x) l.
Proof.
  induction l as [|x l IH]; simpl; [reflexivity|].
  destruct (g x); simpl; [destruct (f x)|]; rewrite ?IH; reflexivity.
Qed.

Lemma fromkeys_from (l : list text) (d : list (text * unit)) :
  Dict.keys (fold_left (fun d k => Dict.set Py.str_eqb k tt d) l d)
  = Dict.keys d
    ++ filter (fun y => negb (Py.str_in y (Dict.keys d))) (first_seen l).
Proof.
  revert d. induction l as [|x l IH]; intros d; simpl.
  - rewrite app_nil_r. reflexivity.
  - rewrite IH, keys_set.
    destruct (Py.str_in x (Dict.keys d)) eqn:Hx; simpl.
    + f_equal. rewrite filter_filter. apply filter_ext. intros y.
      destruct (Py.str_eqb y x) eqn:Hyx; simpl; [|reflexivity].
      apply str_eqb_eq in Hyx. subst y. rewrite Hx. reflexivity.
    + rewrite <- app_assoc. simpl. f_equal. f_equal.
      rewrite filter_filter. apply filter_ext. intros y.
      unfold Py.str_in. rewrite existsb_app. simpl.
      rewrite orb_false_r, negb_orb, andb_comm. reflexivity.
Qed.

Lemma fromkeys_first_seen (l : list text) :
  Dict.keys (fromkeys l) = first_seen l.
Proof.
  unfold fromkeys. rewrite fromkeys_from. simpl.
  induction (first_seen l) as [|x s IH]; simpl; [|rewrite IH]; reflexivity.
Qed.

Lemma first_seen_NoDup (l : list text) : NoDup (first_seen l).
Proof.
  induction l as [|x l IH]; simpl; constructor.
  - rewrite filter_In. intros [_ H]. rewrite str_eqb_refl in H. discriminate.
  - apply NoDup_filter. exact IH.
Qed.

Lemma first_seen_In (l : list text) (x : text) : In x (first_seen l) <-> In x l.
Proof.
  induction l as [|y l IH]; simpl; [tauto|].
  rewrite filter_In, IH. split.
  - intros [H | [H _]]; [left | right]; assumption.
  - intros [H | H]; [left; assumption|].
    destruct (Py.str_eqb x y) eqn:E.
    + apply str_eqb_eq in E. left. congruence.
    + right. split; [assumption | reflexivity].
Qed.

Lemma In_firstn {A : Type} (n : nat) (l : list A) (x : A) :
  In x (firstn n l) -> In x l.
Proof.
  revert n. induction l as [|y l IH]; intros [|n]; simpl; try tauto.
  intros [H | H]; [left; exact H | right; exact (IH n H)].
Qed.

Lemma NoDup_firstn {A : Type} (n : nat) (l : list A) : NoDup l -> NoDup (firstn n l).
Proof.
  revert n. induction l as [|x l IH]; intros [|n] H; simpl; try constructor.
  - inversion H; subst. intros Hin. apply In_firstn in Hin. contradiction.
  - inversion H; subst. apply IH. assumption.
Qed.

Lemma first_seen_remainder (m : text) (l : list text) :
  ~ In m l ->
  filter (fun y => negb (Py.str_eqb y m)) (first_seen l) = first_seen l.
Proof.
  intros Hm. rewrite <- (first_seen_In l) in Hm.
  induction (first_seen l) as [|x s IH]; simpl; [reflexivity|].
  destruct (Py.str_eqb x m) eqn:E; simpl.
  - apply str_eqb_eq in E. subst. exfalso. apply Hm. left. reflexivity.
  - rewrite IH; [reflexivity|]. intros H. apply Hm. right. exact H.
Qed.

(** When the priority rules pick exactly one path [m], the selection is
    [m] followed by the other text files in tree order, cut at the limit. *)
Lemma sample_single_priority (files : list text) (m : text) (limit : Z) :
  0 <= limit ->
  priority_of patterns files = [m] ->
  sample_files_for_llm files limit
  = firstn (Z.to_nat limit)
      (m :: first_seen
              (filter (fun f => negb (Py.str_eqb f m) && is_text_file f) files)).
Proof.
  intros Hl Hp. unfold sample_files_for_llm, candidates.
  rewrite slice_to_nonneg by assumption.
  rewrite fromkeys_first_seen, Hp. simpl. f_equal.
  unfold remainder_of. f_equal.
  rewrite (filter_ext
             (fun f => negb (Py.str_in f [m]) && is_text_file f)
             (fun f => negb (Py.str_eqb f m) && is_text_file f)).
  - apply first_seen_remainder. rewrite filter_In. intros [_ H].
    rewrite str_eqb_refl in H. discriminate.
  - intros f. unfold Py.str_in. simpl. rewrite orb_false_r. reflexivity.
Qed.

(** ** Request assembly: lemmas *)

Section Snippets.

Import AzureOpenAIAnalyzer.

Lemma used_chars_nonneg (items : list (text * text)) : 0 <= used_chars items.
Proof.
  induction items as [|[p t] items IH]; simpl; [lia|].
  pose proof (len_nonneg (Py.slice_to t per_file)). lia.
Qed.

Lemma used_chars_app (a b : list (text * text)) :
  used_chars (a ++ b) = used_chars a + used_chars b.
Proof.
  induction a as [|[p t] a IH]; simpl; [reflexivity|]. rewrite IH. lia.
Qed.

Lemma snippet_loop_break (items : list (text * text)) (used : Z) (acc : list text) :
  used > limit -> snippet_loop items used acc = acc.
Proof.
  intros H. destruct items as [|[p t] items]; simpl; [reflexivity|].
  destruct (Z.gtb_spec used limit); [reflexivity | lia].
Qed.

Lemma snippet_loop_app (before rest : list (text * text)) (used : Z) (acc : list text) :
  used + used_chars (removelast before) <= limit ->
  snippet_loop (before ++ rest) used acc
  = snippet_loop rest (used + used_chars before)
      (acc ++ map (fun f => snippet (fst f)) before).
Proof.
  revert used acc. induction before as [|[p t] before IH]; intros used acc H.
  - simpl. rewrite Z.add_0_r, app_nil_r. reflexivity.
  - assert (Hu : used <= limit).
    { pose proof (used_chars_nonneg (removelast ((p, t) :: before))). lia. }
    simpl app. simpl snippet_loop.
    destruct (Z.gtb_spec used limit); [lia|].
    destruct before as [|f before].
    + simpl. rewrite Z.add_0_r. reflexivity.
    + rewrite IH.
      * simpl used_chars. simpl map. rewrite <- app_assoc. simpl.
        f_equal. lia.
      * change (removelast ((p, t) :: f :: before))
          with ((p, t) :: removelast (f :: before)) in H.
        cbn [used_chars] in H.
        pose proof (len_nonneg (Py.slice_to t per_file)). lia.
Qed.

End Snippets.

(** ** Searching and slicing: lemmas *)

Lemma first_occurrence (c : ascii) (s : text) :
  In c s -> exists pre rest, s = pre ++ c :: rest /\ ~ In c pre.
Proof.
  induction s as [|x s IH]; intros H; [contradiction|].
  destruct (ascii_dec x c) as [-> | Hne].
  - exists [], s. split; [reflexivity | intros []].
  - destruct H as [H | H]; [contradiction|].
    destruct (IH H) as (pre & rest & -> & Hpre).
    exists (x :: pre), rest. split; [reflexivity|].
    intros [E | E]; [contradiction | exact (Hpre E)].
Qed.

Lemma last_occurrence (c : ascii) (s : text) :
  In c s -> exists front post, s = front ++ c :: post /\ ~ In c post.
Proof.
  intros H. apply in_rev in H. apply first_occurrence in H.
  destruct H as (pre & rest & E & Hpre).
  exists (rev rest), (rev pre). split.
  - rewrite <- (rev_involutive s), E, rev_app_distr. simpl.
    rewrite <- app_assoc. reflexivity.
  - intros Hin. apply Hpre. apply in_rev. exact Hin.
Qed.

Lemma find_from_absent (c : ascii) (s : text) (i : Z) :
  ~ In c s -> Py.find_from c s i = -1.
Proof.
  revert i. induction s as [|x s IH]; intros i H; simpl; [reflexivity|].
  destruct (Ascii.eqb_spec x c) as [E | E].
  - exfalso. apply H. left. exact E.
  - apply IH. intros Hin. apply H. right. exact Hin.
Qed.

Lemma find_from_first (c : ascii) (pre rest : text) (i : Z) :
  ~ In c pre -> Py.find_from c (pre ++ c :: rest) i = i + Py.len pre.
Proof.
  revert i. induction pre as [|x pre IH]; intros i H; simpl.
  - rewrite Ascii.eqb_refl. unfold Py.len. simpl. lia.
  - destruct (Ascii.eqb_spec x c) as [E | E].
    + exfalso. apply H. left. exact E.
    + rewrite IH, len_cons; [lia|]. intros Hin. apply H. right. exact Hin.
Qed.

Lemma rfind_from_absent (c : ascii) (s : text) (i last : Z) :
  ~ In c s -> Py.rfind_from c s i last = last.
Proof.
  revert i last. induction s as [|x s IH]; intros i last H; simpl; [reflexivity|].
  destruct (Ascii.eqb_spec x c) as [E | E].
  - exfalso. apply H. left. exact E.
  - apply IH. intros Hin. apply H. right. exact Hin.
Qed.

Lemma rfind_from_app (c : ascii) (a b : text) (i last : Z) :
  Py.rfind_from c (a ++ b) i last
  = Py.rfind_from c b (i + Py.len a) (Py.rfind_from c a i last).
Proof.
  revert i last. induction a as [|x a IH]; intros i last; simpl.
  - unfold Py.len. simpl. rewrite Z.add_0_r. reflexivity.
  - rewrite IH, len_cons. f_equal. lia.
Qed.

Lemma rfind_last (c : ascii) (front post : text) :
  ~ In c post -> Py.rfind c (front ++ c :: post) = Py.len front.
Proof.
  intros H. unfold Py.rfind. rewrite rfind_from_app. simpl.
  rewrite Ascii.eqb_refl. apply rfind_from_absent. exact H.
Qed.

Lemma find_first (c : ascii) (pre rest : text) :
  ~ In c pre -> Py.find c (pre ++ c :: rest) = Py.len pre.
Proof. intros H. unfold Py.find. rewrite find_from_first by exact H. lia. Qed.

Lemma skipn_len_app {A : Type} (a b : list A) :
  skipn (Z.to_nat (Py.len a)) (a ++ b) = b.
Proof.
  unfold Py.len. rewrite Nat2Z.id.
  induction a as [|x a IH]; simpl; [reflexivity | exact IH].
Qed.

Lemma firstn_len_app {A : Type} (a b : list A) :
  firstn (Z.to_nat (Py.len a)) (a ++ b) = a.
Proof.
  unfold Py.len. rewrite Nat2Z.id.
  induction a as [|x a IH]; simpl; [reflexivity | rewrite IH; reflexivity].
Qed.

Lemma clamp_inside (n i : Z) : 0 <= i <= n -> Py.clamp n i = i.
Proof.
  intros H. unfold Py.clamp.
  destruct (Z.ltb_spec i 0); [lia|]. lia.
Qed.

(** The slice that starts after [a] and spans [b]. *)
Lemma slice_middle {A : Type} (a b c : list A) :
  Py.slice (a ++ b ++ c) (Py.len a) (Py.len a + Py.len b) = b.
Proof.
  unfold Py.slice.
  pose proof (len_nonneg a). pose proof (len_nonneg b). pose proof (len_nonneg c).
  rewrite !clamp_inside by (rewrite !len_app; lia).
  rewrite skipn_len_app.
  replace (Py.len a + Py.len b - Py.len a) with (Py.len b) by lia.
  apply firstn_len_app.
Qed.

(** ** The decoder: an opening brace leads to an object *)

Lemma parse_members_object (fuel : nat) :
  forall s acc v r,
    Json.parse_members fuel s acc = Some (v, r) -> exists d, v = Json.JObject d.
Proof.
  induction fuel as [|fuel IH]; intros s acc v r H; simpl in H; [discriminate|].
  destruct s as [|c s1]; [discriminate|].
  destruct (Ascii.eqb c "034"); [|discriminate].
  destruct (Json.scan_string s1) as [[key s2]|]; [|discriminate].
  destruct (Json.skip_ws s2) as [|colon s3]; [discriminate|].
  destruct (Ascii.eqb colon ":"); [|discriminate].
  destruct (Json.parse_value fuel (Json.skip_ws s3)) as [[v' s4]|]; [|discriminate].
  destruct (Json.skip_ws s4) as [|d s5]; [discriminate|].
  destruct (Ascii.eqb d "}").
  { injection H as <- _. eexists. reflexivity. }
  destruct (Ascii.eqb d ","); [|discriminate].
  eapply IH. eassumption.
Qed.

Lemma parse_value_brace (fuel : nat) (s : text) (v : Json.value) (r : text) :
  Json.parse_value fuel ("{"%char :: s) = Some (v, r) -> exists d, v = Json.JObject d.
Proof.
  destruct fuel as [|fuel]; intros H; [discriminate|].
  cbn [Json.parse_value] in H.
  change (Ascii.eqb "{" "034") with false in H.
  change (Ascii.eqb "{" "{") with true in H. cbv iota in H.
  destruct (Json.skip_ws s) as [|c rest]; [discriminate|].
  destruct (Ascii.eqb c "}").
  - injection H as <- _. eexists. reflexivity.
  - eapply parse_members_object. eassumption.
Qed.

Lemma loads_brace_object (s : text) (v : Json.value) :
  Json.loads ("{"%char :: s) = Some v -> exists d, v = Json.JObject d.
Proof.
  unfold Json.loads. change (Json.skip_ws ("{"%char :: s)) with ("{"%char :: s).
  destruct (Json.parse_value _ _) as [[v' rest]|] eqn:E; [|discriminate].
  destruct (Json.skip_ws rest); [|discriminate].
  intros H. injection H as <-. eapply parse_value_brace. eassumption.
Qed.

Lemma loads_empty : Json.loads [] = None.
Proof. reflexivity. Qed.

Lemma loads_closing_brace : Json.loads ["}"%char] = None.
Proof. reflexivity. Qed.

(** ** The text between the braces: lemmas *)

Section Braces.

Import AzureOpenAIAnalyzer.


Lemma braces_no_opening (out : text) :
  ~ In "{"%char out -> braces out = [] \/ braces out = ["}"%char].
Proof.
  intros Hno. unfold braces. unfold Py.find.
  rewrite find_from_absent by exact Hno.
  destruct (in_dec ascii_dec "}"%char out) as [Hin | Hout].
  - apply last_occurrence in Hin. destruct Hin as (front & post & -> & Hpost).
    rewrite rfind_last by exact Hpost.
    unfold Py.slice.
    pose proof (len_nonneg front) as Hf. pose proof (len_nonneg post) as Hp.
    assert (Hn : Py.len (front ++ "}"%char :: post) = Py.len front + 1 + Py.len post).
    { rewrite len_app, len_cons. lia. }
    rewrite Hn.
    rewrite (clamp_inside _ (Py.len front + 1)) by lia.
    unfold Py.clamp. change (-1 <? 0) with true. cbv iota.
    rewrite Z.max_l by lia.
    destruct post as [|x post].
    + right. change (Py.len (@nil ascii)) with 0.
      replace (-1 + (Py.len front + 1 + 0)) with (Py.len front) by lia.
      rewrite skipn_len_app.
      replace (Py.len front + 1 - Py.len front) with 1 by lia. reflexivity.
    + left. rewrite len_cons in *. pose proof (len_nonneg post).
      replace (Z.to_nat (Py.len front + 1 - (-1 + (Py.len front + 1 + (1 + Py.len post)))))
        with 0%nat by lia.
      reflexivity.
  - left. unfold Py.rfind. rewrite rfind_from_absent by exact Hout.
    unfold Py.slice. pose proof (len_nonneg out).
    rewrite (clamp_inside _ (-1 + 1)) by lia.
    unfold Py.clamp. change (-1 <? 0) with true. cbv iota.
    replace (Z.to_nat (-1 + 1 - Z.max (-1 + Py.len out) 0)) with 0%nat by lia.
    reflexivity.
Qed.

Lemma braces_shape (out : text) :
  braces out = [] \/ braces out = ["}"%char] \/ exists s, braces out = "{"%char :: s.
Proof.
  destruct (in_dec ascii_dec "{"%char out) as [Hin | Hout].
  - apply first_occurrence in Hin. destruct Hin as (pre & rest & -> & Hpre).
    unfold braces. rewrite find_first by exact Hpre.
    unfold Py.slice.
    pose proof (len_nonneg pre). pose proof (len_nonneg rest).
    rewrite (clamp_inside _ (Py.len pre)) by (rewrite len_app, len_cons; lia).
    rewrite skipn_len_app.
    destruct (Z.to_nat _) as [|k]; simpl.
    + left. reflexivity.
    + right. right. eexists. reflexivity.
  - destruct (braces_no_opening out Hout) as [H | H]; [left | right; left]; exact H.
Qed.

Lemma In_skipn {A : Type} (n : nat) (l : list A) (x : A) :
  In x (skipn n l) -> In x l.
Proof.
  revert l. induction n as [|n IH]; intros [|y l]; simpl; try tauto.
  intros H. right. exact (IH l H).
Qed.

Lemma braces_In (out : text) (c : ascii) : In c (braces out) -> In c out.
Proof.
  unfold braces, Py.slice. intros H.
  apply In_firstn in H. apply In_skipn in H. exact H.
Qed.

(** A text with no brace at all is not decoded. *)
Lemma no_braces_not_decoded (out : text) :
  ~ In "{"%char out -> ~ In "}"%char out -> Json.loads (braces out) = None.
Proof.
  intros Ho Hc.
  destruct (braces_no_opening out Ho) as [E | E]; rewrite E; [reflexivity|].
  exfalso. apply Hc. apply braces_In. rewrite E. left. reflexivity.
Qed.

(** Whatever is decoded is a dictionary. *)
Lemma decoded_is_object (out : text) (v : Json.value) :
  Json.loads (braces out) = Some v -> exists d, v = Json.JObject d.
Proof.
  destruct (braces_shape out) as [E | [E | [s E]]]; rewrite E; intros H.
  - discriminate.
  - discriminate.
  - eapply loads_brace_object. exact H.
Qed.

End Braces.

(** ** Slugs: lemmas *)

Ltac by_cases_on_char c :=
  destruct c as [[] [] [] [] [] [] [] []]; vm_compute; try reflexivity;
  try discriminate; intros; try discriminate; try reflexivity.

Lemma lower_char_alnum (c : ascii) : Py.is_alnum (Py.lower_char c) = Py.is_alnum c.
Proof. by_cases_on_char c. Qed.

Lemma lower_alnum_ident (c : ascii) :
  Py.is_alnum c = true -> is_ident_char (Py.lower_char c) = true.
Proof. by_cases_on_char c. Qed.

Lemma alnum_not_underscore (c : ascii) :
  Py.is_alnum c = true -> Ascii.eqb c "_" = false.
Proof. by_cases_on_char c. Qed.

Lemma lstrip_split (c : ascii) (s : text) :
  exists k, s = repeat c k ++ Py.lstrip c s.
Proof.
  induction s as [|x s [k IH]]; simpl.
  - exists 0%nat. reflexivity.
  - destruct (Ascii.eqb_spec x c) as [-> | Hne].
    + exists (S k). simpl. f_equal. exact IH.
    + exists 0%nat. reflexivity.
Qed.

Lemma lstrip_head (c : ascii) (s : text) : Py.startswith (Py.lstrip c s) [c] = false.
Proof.
  induction s as [|x s IH]; simpl; [reflexivity|].
  destruct (Ascii.eqb x c) eqn:E; [exact IH|].
  simpl. rewrite E. reflexivity.
Qed.

Lemma rev_repeat {A : Type} (x : A) (k : nat) : rev (repeat x k) = repeat x k.
Proof.
  induction k as [|k IH]; simpl; [reflexivity|].
  rewrite IH. clear IH. induction k as [|k IH]; simpl; [reflexivity|].
  rewrite IH. reflexivity.
Qed.

Lemma rstrip_split (c : ascii) (s : text) :
  exists k, s = Py.rstrip c s ++ repeat c k.
Proof.
  unfold Py.rstrip. destruct (lstrip_split c (rev s)) as [k E].
  exists k. rewrite <- (rev_involutive s) at 1. rewrite E at 1.
  rewrite rev_app_distr, rev_repeat. reflexivity.
Qed.

Lemma strip_split (c : ascii) (s : text) :
  exists i j, s = repeat c i ++ Py.strip c s ++ repeat c j.
Proof.
  unfold Py.strip. destruct (lstrip_split c s) as [i Ei].
  destruct (rstrip_split c (Py.lstrip c s)) as [j Ej].
  exists i, j. rewrite <- Ej. exact Ei.
Qed.

Lemma rstrip_tail (c : ascii) (s : text) : Py.endswith (Py.rstrip c s) [c] = false.
Proof.
  unfold Py.endswith, Py.rstrip. rewrite rev_involutive. apply lstrip_head.
Qed.

Lemma strip_head (c : ascii) (s : text) : Py.startswith (Py.strip c s) [c] = false.
Proof.
  unfold Py.strip. pose proof (lstrip_head c s) as Hh.
  destruct (rstrip_split c (Py.lstrip c s)) as [k E].
  destruct (Py.rstrip c (Py.lstrip c s)) as [|x r]; [reflexivity|].
  rewrite E in Hh. simpl in Hh |- *. exact Hh.
Qed.

Lemma sub_non_alnum_ident (in_run : bool) (s : text) :
  Forall (fun c => is_ident_char c = true) (sub_non_alnum in_run (Py.lower s)).
Proof.
  revert in_run. induction s as [|c s IH]; intros in_run; simpl; [constructor|].
  rewrite lower_char_alnum.
  destruct (Py.is_alnum c) eqn:E.
  - constructor; [apply lower_alnum_ident; exact E | apply IH].
  - destruct in_run; [apply IH | constructor; [reflexivity | apply IH]].
Qed.


Lemma sub_non_alnum_run_head (s : text) :
  Py.startswith (sub_non_alnum true s) "_" = false.
Proof.
  induction s as [|c s IH]; simpl; [reflexivity|].
  destruct (Py.is_alnum c) eqn:E; [|exact IH].
  simpl. rewrite (alnum_not_underscore c E). reflexivity.
Qed.

Lemma sub_non_alnum_single (in_run : bool) (s : text) :
  Py.contains (sub_non_alnum in_run s) "__" = false.
Proof.
  revert in_run. induction s as [|c s IH]; intros in_run; simpl; [reflexivity|].
  destruct (Py.is_alnum c) eqn:E.
  - simpl. rewrite (alnum_not_underscore c E). simpl. apply IH.
  - destruct in_run; [apply IH|].
    simpl. rewrite IH, orb_false_r.
    pose proof (sub_non_alnum_run_head s) as Hh.
    destruct (sub_non_alnum true s) as [|x r]; [reflexivity|].
    simpl in Hh. destruct (Ascii.eqb x "_"); [discriminate | reflexivity].
Qed.


Lemma startswith_app (s t needle : text) :
  Py.startswith s needle = true -> Py.startswith (s ++ t) needle = true.
Proof.
  revert s. induction needle as [|p needle IH]; intros s H; [reflexivity|].
  destruct s as [|x s]; [discriminate|]. simpl in *.
  apply andb_true_iff in H as [H1 H2]. rewrite H1. simpl. apply IH. exact H2.
Qed.

Lemma contains_infix (a m b needle : text) :
  Py.contains (a ++ m ++ b) needle = false -> Py.contains m needle = false.
Proof.
  intros H. destruct (Py.contains m needle) eqn:E; [|reflexivity].
  rewrite <- H. clear H. symmetry.
  assert (Hmb : Py.contains (m ++ b) needle = true).
  { clear a. induction m as [|x m IH]; simpl in *.
    - rewrite orb_false_r in E. destruct needle; [|discriminate].
      destruct b; reflexivity.
    - apply orb_true_iff in E as [E | E].
      + change (x :: m ++ b) with ((x :: m) ++ b).
        rewrite (startswith_app (x :: m) b needle E). reflexivity.
      + rewrite (IH E). apply orb_true_r. }
  induction a as [|x a IH]; simpl; [exact Hmb|].
  rewrite IH. apply orb_true_r.
Qed.

(** ** The tree walk: lemmas *)

Section Walk.

Variable repository_tree : Z -> list GitLabRepo.entry.
Variable MAX_FILES : Z.

Let pages := pages_upto repository_tree.
Let loop := GitLabRepo.walk_loop repository_tree MAX_FILES.

Lemma pages_upto_S (n : nat) :
  pages (S n) = pages n ++ repository_tree (Z.of_nat (S n)).
Proof.
  unfold pages, pages_upto. rewrite seq_S, flat_map_app. simpl.
  rewrite app_nil_r. reflexivity.
Qed.

(** While no page was empty, there are at least as many entries as pages. *)
Lemma pages_upto_grow (n : nat) :
  (forall j, (1 <= j <= n)%nat -> repository_tree (Z.of_nat j) <> []) ->
  Z.of_nat n <= Py.len (pages n).
Proof.
  induction n as [|n IH]; intros H.
  - apply len_nonneg.
  - rewrite pages_upto_S, len_app.
    assert (Hn : repository_tree (Z.of_nat (S n)) <> []) by (apply H; lia).
    assert (0 < Py.len (repository_tree (Z.of_nat (S n)))).
    { destruct (repository_tree (Z.of_nat (S n))); [contradiction|].
      rewrite len_cons. pose proof (len_nonneg l). lia. }
    assert (Z.of_nat n <= Py.len (pages n)) by (apply IH; intros; apply H; lia).
    lia.
Qed.

Lemma walk_loop_step (fuel : nat) (items : list GitLabRepo.entry) (page : Z) :
  loop (S fuel) items page
  = match repository_tree page with
    | [] => Some (items, page)
    | _ :: _ =>
      if Py.len (items ++ repository_tree page) >=? MAX_FILES
      then Some (items ++ repository_tree page, page)
      else loop fuel (items ++ repository_tree page) (page + 1)
    end.
Proof. unfold loop. simpl. destruct (repository_tree page); reflexivity. Qed.

(** The loop, started after [k] pages that were neither empty nor enough,
    ends at the first page [n] that is empty or reaches the cap. *)
Lemma walk_loop_from (fuel k : nat) :
  (forall j, (1 <= j <= k)%nat ->
     repository_tree (Z.of_nat j) <> [] /\ Py.len (pages j) < MAX_FILES) ->
  Z.max 1 (MAX_FILES - Py.len (pages k)) <= Z.of_nat fuel ->
  exists n, (k < n)%nat /\
    loop fuel (pages k) (Z.of_nat (S k)) = Some (pages n, Z.of_nat n) /\
    (repository_tree (Z.of_nat n) = [] \/ MAX_FILES <= Py.len (pages n)) /\
    (forall j, (1 <= j < n)%nat ->
       repository_tree (Z.of_nat j) <> [] /\ Py.len (pages j) < MAX_FILES).
Proof.
  revert k. induction fuel as [|fuel IH]; intros k Hbefore Hfuel; [lia|].
  rewrite walk_loop_step.
  pose proof (pages_upto_S k) as HS.
  destruct (repository_tree (Z.of_nat (S k))) as [|e chunk] eqn:Hchunk.
  - exists (S k). rewrite HS, app_nil_r.
    split; [lia|]. split; [reflexivity|]. split; [left; exact Hchunk|].
    intros j Hj. apply Hbefore. lia.
  - rewrite <- HS.
    destruct (Z.geb_spec (Py.len (pages (S k))) MAX_FILES) as [Hge | Hlt].
    + exists (S k).
      split; [lia|]. split; [reflexivity|]. split; [right; exact Hge|].
      intros j Hj. apply Hbefore. lia.
    + assert (Hlen : Py.len (pages (S k)) = Py.len (pages k) + (1 + Py.len chunk)).
      { rewrite HS, len_app, len_cons. reflexivity. }
      pose proof (len_nonneg chunk) as Hc.
      destruct (IH (S k)) as (n & Hn & Hrun & Hstop & Hall).
      * intros j Hj. destruct (Nat.eq_dec j (S k)) as [-> | Hne].
        -- split; [rewrite Hchunk; discriminate | exact Hlt].
        -- apply Hbefore. lia.
      * lia.
      * exists n.
        split; [lia|]. split; [|split; [exact Hstop | exact Hall]].
        replace (Z.of_nat (S k) + 1) with (Z.of_nat (S (S k))) by lia.
        exact Hrun.
Qed.

End Walk.

(** ** Pulling contents: lemmas *)

Section Pull.

Variable get_file : text -> option text.

Lemma pull_contents_sound (selected : list text) (contents : list (text * text)) :
  forall e, In e (pull_contents get_file selected contents) ->
            In e contents \/ pulled get_file selected e.
Proof.
  revert contents. induction selected as [|p rest IH]; intros contents e H; simpl in H.
  - left. exact H.
  - assert (Hweak : forall e, pulled get_file rest e -> pulled get_file (p :: rest) e).
    { intros e' (H1 & H2). split; [right; exact H1 | exact H2]. }
    destruct (is_text_file p) eqn:Ht; simpl in H.
    2:{ apply IH in H as [H | H]; [left; exact H | right; apply Hweak; exact H]. }
    destruct (get_file p) as [[|c txt]|] eqn:Hg.
    + apply IH in H as [H | H]; [left; exact H | right; apply Hweak; exact H].
    + apply IH in H as [H | H]; [|right; apply Hweak; exact H].
      apply In_set in H as [-> | H]; [|left; exact H].
      right. repeat split; simpl; [left; reflexivity | exact Ht | exact Hg | discriminate].
    + apply IH in H as [H | H]; [left; exact H | right; apply Hweak; exact H].
Qed.

Lemma pull_contents_keeps (selected : list text) (contents : list (text * text)) :
  forall e, In e contents ->
            (forall t, get_file (fst e) = Some t -> t = snd e) ->
            In e (pull_contents get_file selected contents).
Proof.
  revert contents. induction selected as [|p rest IH]; intros contents e H Hsame; simpl.
  - exact H.
  - destruct (is_text_file p); simpl; [|apply IH; assumption].
    destruct (get_file p) as [[|c txt]|] eqn:Hg; try (apply IH; assumption).
    apply IH; [|exact Hsame].
    destruct (list_eq_dec ascii_dec (fst e) p) as [E | Hne].
    + destruct e as [k v]. simpl in *. subst k.
      rewrite (Hsame _ Hg).
      clear - H. induction contents as [|[k' v'] d IHd]; [contradiction|].
      simpl. destruct (Py.str_eqb k' p) eqn:Ek.
      * apply str_eqb_eq in Ek. subst k'. left. reflexivity.
      * destruct H as [H | H]; [injection H as -> ->; rewrite str_eqb_refl in Ek; discriminate|].
        right. apply IHd. exact H.
    + apply set_In_other; assumption.
Qed.

Lemma pull_contents_complete (selected : list text) (contents : list (text * text)) :
  forall e, pulled get_file selected e ->
            In e (pull_contents get_file selected contents)
            \/ In (fst e) (Dict.keys contents).
Proof.
  revert contents. induction selected as [|p rest IH]; intros contents e (Hin & Ht & Hg & Hne).
  - contradiction.
  - destruct e as [k v]. simpl in *.
    destruct (in_dec (list_eq_dec ascii_dec) k (Dict.keys contents)) as [Hk | Hk];
      [right; exact Hk|]. left.
    destruct Hin as [-> | Hin].
    + rewrite Ht, Hg. simpl. destruct v as [|c txt]; [contradiction|].
      apply pull_contents_keeps.
      * apply set_In_same. exact Hk.
      * simpl. intros t Ht'. congruence.
    + destruct (is_text_file p) eqn:Htp; simpl.
      2:{ destruct (IH contents (k, v)) as [H | H]; [repeat split; assumption | exact H | contradiction]. }
      destruct (get_file p) as [[|c txt]|] eqn:Hgp.
      * destruct (IH contents (k, v)) as [H | H]; [repeat split; assumption | exact H | contradiction].
      * destruct (list_eq_dec ascii_dec k p) as [-> | Hkp].
        -- apply pull_contents_keeps.
           ++ assert (v = c :: txt) by congruence. subst v.
              apply set_In_same. exact Hk.
           ++ simpl. intros t Ht'. congruence.
        -- destruct (IH (Dict.set Py.str_eqb p (c :: txt) contents) (k, v)) as [H | H];
             [repeat split; assumption | exact H |].
           exfalso. simpl in H. rewrite keys_set in H.
           destruct (Py.str_in p (Dict.keys contents)); [contradiction|].
           apply in_app_or in H as [H | [H | []]]; [contradiction | congruence].
      * destruct (IH contents (k, v)) as [H | H]; [repeat split; assumption | exact H | contradiction].
Qed.

End Pull.

(** * Checked properties *)

Section Properties.

Import AzureOpenAIAnalyzer.
Import Json.

(** ** Parsing the answer *)

Lemma parse_output_degraded (out : text) :
  loads (braces out) = None -> parse_output out = degraded out.
Proof. intros H. unfold parse_output. rewrite H. reflexivity. Qed.


(** C1, as the code has it: when the text between the braces of the
    response is not decoded (bad bounds, invalid JSON, or no braces, see
    [no_braces_not_decoded]), [analyze] returns the degraded dictionary: the
    notes [c2], [c3] and [c4] are empty, [c1] holds the message
    "Parsing error; see narrative.", the narrative is the first 4000
    characters of the response text, and the mind map is the root
    "Project" with no branches and no edges. *)
Theorem analyze_degraded_on_parse_failure
        (create : list message -> response)
        (project_summary : text) (sampled_files : list (text * text)) :
  let out := extract_text (create (input project_summary sampled_files)) in
  let result := analyze create project_summary sampled_files in
  loads (braces out) = None ->
  get "c1" result = Some (JString (U "Parsing error; see narrative."))
  /\ get "c2" result = Some (JString [])
  /\ get "c3" result = Some (JString [])
  /\ get "c4" result = Some (JString [])
  /\ get "narrative" result = Some (JString (U (Py.slice_to out 4000)))
  /\ get "mindmap" result
     = Some (JObject [ (U "root", JString (U "Project"));
                       (U "branches", JArray []);
                       (U "edges", JArray []) ]).
Proof.
  intros out result H. unfold result, analyze. fold out.
  rewrite (parse_output_degraded out H).
  repeat split; reflexivity.
Qed.

Lemma analyze_degraded_on_parse_failure_witness :
  loads (braces "not json at all") = None
  /\ get "c1" (analyze (Sample.answering "not json at all") [] [])
     = Some (JString (U "Parsing error; see narrative."))
  /\ get "narrative" (analyze (Sample.answering "not json at all") [] [])
     = Some (JString (U "not json at all")).
Proof.
  split; [reflexivity|].
  pose proof (analyze_degraded_on_parse_failure
                (Sample.answering "not json at all") [] [] eq_refl)
    as (H1 & _ & _ & _ & H5 & _).
  split; [exact H1 | exact H5].
Defined.

(** C1 as stated fails: on the response "not json at all", which is not
    decoded, the note [c1] of the result is not the empty string. *)
Lemma degraded_c1_not_empty :
  loads (braces "not json at all") = None
  /\ get "c1" (analyze (Sample.answering "not json at all") [] [])
     <> Some (JString []).
Proof. split; [reflexivity | vm_compute; discriminate]. Qed.



(** C4, as the code has it: [analyze] returns either the degraded
    dictionary, which has the five string fields, or the decoded object as
    it is, always a dictionary; [main] reads each field with the empty
    string as default, so that a field that is absent reads as empty. *)
Theorem analyze_fields_read_with_default
        (create : list message -> response)
        (project_summary : text) (sampled_files : list (text * text)) :
  let out := extract_text (create (input project_summary sampled_files)) in
  let result := analyze create project_summary sampled_files in
  ((loads (braces out) = None /\ result = degraded out)
   \/ (exists members, loads (braces out) = Some (JObject members)
                       /\ result = JObject members))
  /\ Forall (fun key => exists s, get key (degraded out) = Some (JString s))
            string_fields
  /\ forall key,
      read_field result key
      = match get key result with Some v => v | None => JString [] end.
Proof.
  intros out result. split; [|split].
  - unfold result, analyze. fold out. unfold parse_output.
    destruct (loads (braces out)) as [v|] eqn:Hv.
    + right. destruct (decoded_is_object out v Hv) as [members ->].
      exists members. split; reflexivity.
    + left. split; reflexivity.
  - unfold string_fields. repeat constructor; eexists; reflexivity.
  - intros key. reflexivity.
Qed.

(** C4 as stated fails: the response "{}" is decoded, the result is the
    empty dictionary, and the field [c1] is absent from it. *)
Lemma parsed_result_lacks_fields :
  analyze (Sample.answering "{}") [] [] = JObject []
  /\ get "c1" (analyze (Sample.answering "{}") [] []) = None.
Proof. split; reflexivity. Qed.

End Properties.

Section RequestProperties.

Import AzureOpenAIAnalyzer.

(** ** Assembling the request *)

(** The request body depends on the contents only through their lengths:
    two samples with the same paths and the same content lengths give the
    same body. *)
Lemma snippet_loop_lengths (a b : list (text * text)) (used : Z) (acc : list text) :
  Forall2 (fun x y => fst x = fst y /\ Py.len (snd x) = Py.len (snd y)) a b ->
  snippet_loop a used acc = snippet_loop b used acc.
Proof.
  intros H. revert used acc.
  induction H as [|[p t] [p' t'] a b [Hp Hl] _ IH]; intros used acc; simpl in *.
  - reflexivity.
  - subst p'. destruct (used >? limit); [reflexivity|].
    assert (E : Py.len (Py.slice_to t per_file) = Py.len (Py.slice_to t' per_file)).
    { rewrite !len_slice_to by (unfold per_file; lia). rewrite Hl. reflexivity. }
    rewrite E. apply IH.
Qed.

Lemma input_text_lengths (project_summary : text) (a b : list (text * text)) :
  Forall2 (fun x y => fst x = fst y /\ Py.len (snd x) = Py.len (snd y)) a b ->
  input_text project_summary a = input_text project_summary b.
Proof.
  intros H. unfold input_text, snippet_pairs, files_list.
  rewrite (snippet_loop_lengths a b 0 [] H).
  replace (Dict.keys b) with (Dict.keys a); [reflexivity|].
  unfold Dict.keys. induction H as [|x y a b [Hxy _] _ IH]; simpl; [reflexivity|].
  f_equal; [exact Hxy | exact IH].
Qed.

(** C2 fails on the code: for the sample [{"a.py": "print(1)"}] the body
    names the path, and the content, which fits in the budget, does not
    occur in it. *)
Theorem input_text_omits_content :
  snippet_pairs [ ("a.py" : text, "print(1)" : text) ] = [ snippet "a.py" ]
  /\ Py.contains (input_text [] [ ("a.py" : text, "print(1)" : text) ]) "a.py" = true
  /\ Py.contains (input_text [] [ ("a.py" : text, "print(1)" : text) ]) "print(1)" = false.
Proof. repeat split; vm_compute; reflexivity. Qed.

(** C5: when the files [before] count for at most the cap and one more
    file takes the count over it, the snippets are those of [before] and of
    that file, and of no file after it. *)
Theorem snippets_stop_after_crossing
        (before after : list (text * text)) (crossing : text * text) :
  used_chars before <= limit ->
  limit < used_chars (before ++ [crossing]) ->
  snippet_pairs (before ++ crossing :: after)
  = map (fun f => snippet (fst f)) (before ++ [crossing]).
Proof.
  intros Hbefore Hover. unfold snippet_pairs.
  replace (before ++ crossing :: after) with ((before ++ [crossing]) ++ after)
    by (rewrite <- app_assoc; reflexivity).
  rewrite snippet_loop_app.
  - apply snippet_loop_break. lia.
  - rewrite removelast_last. lia.
Qed.

Lemma snippets_stop_after_crossing_witness :
  used_chars Sample.four_full_files <= limit
  /\ limit < used_chars (Sample.four_full_files ++ [Sample.file_of "e.py" 1])
  /\ snippet_pairs (Sample.four_full_files
                    ++ Sample.file_of "e.py" 1 :: [Sample.file_of "f.py" 10])
     = [ snippet "a.py"; snippet "b.py"; snippet "c.py"; snippet "d.py";
         snippet "e.py" ].
Proof.
  assert (H1 : used_chars Sample.four_full_files <= limit)
    by (vm_compute; discriminate).
  assert (H2 : limit < used_chars (Sample.four_full_files ++ [Sample.file_of "e.py" 1]))
    by (vm_compute; reflexivity).
  split; [exact H1|]. split; [exact H2|].
  exact (snippets_stop_after_crossing
           Sample.four_full_files [Sample.file_of "f.py" 10]
           (Sample.file_of "e.py" 1) H1 H2).
Defined.

(** Below the cap nothing is skipped. *)
Lemma snippets_all_under_cap (files : list (text * text)) :
  used_chars (removelast files) <= limit ->
  snippet_pairs files = map (fun f => snippet (fst f)) files.
Proof.
  intros H. unfold snippet_pairs.
  rewrite <- (app_nil_r files) at 1. rewrite snippet_loop_app by lia.
  reflexivity.
Qed.

End RequestProperties.

(** ** Selecting files *)

(** C3 fails on the code: of the five paths of [Sample.tree_with_manifest],
    [requirements.txt] is matched by none of the patterns, whose [\\.]
    asks for a backslash before the extension; with limit 3 the selection
    is the first three text files in tree order, the manifest last. *)
Theorem sample_manifest_not_first :
  existsb (fun p => Re.search p "requirements.txt") patterns = false
  /\ priority_of patterns Sample.tree_with_manifest = []
  /\ sample_files_for_llm Sample.tree_with_manifest 3
     = [ "src/a.py" : text; "src/b.py" : text; "requirements.txt" : text ].
Proof. repeat split; vm_compute; reflexivity. Qed.

(** The rule for [Dockerfile], written without an escape, works as meant. *)
Lemma sample_dockerfile_first :
  sample_files_for_llm Sample.tree_with_dockerfile 3
  = [ "Dockerfile" : text; "src/a.py" : text; "src/b.py" : text ].
Proof. vm_compute. reflexivity. Qed.




(** ** Walking the tree *)

(** C8, as the code has it.  With fuel for [max(1, MAX_FILES)] iterations
    the loop always ends.  It requests the pages 1 to [n], where [n] is the
    first page that is empty or with which the count reaches the cap, so
    [n] is at most [max(1, MAX_FILES)]; it returns the entries of these
    pages.  The last page is appended whole: the listing has at most
    [max(0, MAX_FILES - 1)] entries more than that page has. *)
Theorem walk_tree_stops
        (repository_tree : Z -> list GitLabRepo.entry) (MAX_FILES : Z)
        (fuel : nat) :
  (Z.to_nat (Z.max 1 MAX_FILES) <= fuel)%nat ->
  exists n : nat,
    GitLabRepo.walk_loop repository_tree MAX_FILES fuel [] 1
    = Some (pages_upto repository_tree n, Z.of_nat n)
    /\ GitLabRepo.walk_tree repository_tree MAX_FILES fuel
       = Some (pages_upto repository_tree n)
    /\ 1 <= Z.of_nat n <= Z.max 1 MAX_FILES
    /\ (repository_tree (Z.of_nat n) = []
        \/ MAX_FILES <= Py.len (pages_upto repository_tree n))
    /\ (forall j, (1 <= j < n)%nat ->
          repository_tree (Z.of_nat j) <> []
          /\ Py.len (pages_upto repository_tree j) < MAX_FILES)
    /\ Py.len (pages_upto repository_tree n)
       <= Z.max 0 (MAX_FILES - 1) + Py.len (repository_tree (Z.of_nat n)).
Proof.
  intros Hfuel.
  destruct (walk_loop_from repository_tree MAX_FILES fuel 0)
    as (n & Hn & Hrun & Hstop & Hall).
  - intros j Hj. lia.
  - change (pages_upto repository_tree 0) with (@nil GitLabRepo.entry).
    change (Py.len (@nil GitLabRepo.entry)) with 0. lia.
  - change (pages_upto repository_tree 0) with (@nil GitLabRepo.entry) in Hrun.
    change (Z.of_nat 1) with 1 in Hrun.
    exists n. split; [exact Hrun|].
    split; [unfold GitLabRepo.walk_tree; rewrite Hrun; reflexivity|].
    destruct n as [|m]; [lia|].
    assert (Hm : Z.of_nat m <= Py.len (pages_upto repository_tree m)).
    { apply pages_upto_grow. intros j Hj. apply Hall. lia. }
    assert (Hcap : m = 0%nat \/ Py.len (pages_upto repository_tree m) < MAX_FILES).
    { destruct m as [|m']; [left; reflexivity | right; apply Hall; lia]. }
    split; [|split; [exact Hstop | split; [exact Hall|]]].
    + destruct Hcap as [-> | Hcap]; lia.
    + rewrite pages_upto_S, len_app.
      destruct Hcap as [-> | Hcap].
      * change (pages_upto repository_tree 0) with (@nil GitLabRepo.entry).
        change (Py.len (@nil GitLabRepo.entry)) with 0. lia.
      * lia.
Qed.

Lemma walk_tree_stops_witness :
  (Z.to_nat (Z.max 1 150) <= 150)%nat
  /\ exists n : nat,
      GitLabRepo.walk_tree Sample.two_full_pages 150 150
      = Some (pages_upto Sample.two_full_pages n)
      /\ 1 <= Z.of_nat n <= Z.max 1 150.
Proof.
  assert (H : (Z.to_nat (Z.max 1 150) <= 150)%nat) by (vm_compute; lia).
  split; [exact H|].
  destruct (walk_tree_stops Sample.two_full_pages 150 150 H)
    as (n & _ & Hwalk & Hn & _).
  exists n. split; [exact Hwalk | exact Hn].
Defined.

(** C8 as stated fails on the bound: with the cap set to 150 and pages of
    a hundred entries, the walk stops after the second page and returns
    200 entries. *)
Lemma walk_tree_exceeds_cap :
  option_map Py.len (GitLabRepo.walk_tree Sample.two_full_pages 150 150) = Some 200
  /\ ~ 200 <= 150.
Proof. split; [vm_compute; reflexivity | lia]. Qed.

(** ** Slugs *)


(** ** Pulling contents *)

(** C10: a pair is in the mapping handed to the analyzer exactly when its
    path was selected, is recognised as a text file, and was fetched and
    decoded to a string that is not empty, which is the content of the
    pair.  A fetch or a decoding that fails, and an empty decoded string,
    leave no entry. *)
Theorem contents_text_and_non_empty
        (files_get : text -> option text)
        (b64decode : text -> option (list Byte.byte))
        (decode_utf8_ignore : list Byte.byte -> text)
        (selected : list text) (path txt : text) :
  In (path, txt)
     (pull_contents (GitLabRepo.get_file files_get b64decode decode_utf8_ignore)
                    selected [])
  <-> (In path selected
       /\ is_text_file path = true
       /\ (exists payload bytes,
              files_get path = Some payload
              /\ b64decode payload = Some bytes
              /\ decode_utf8_ignore bytes = txt)
       /\ txt <> []).
Proof.
  set (get_file := GitLabRepo.get_file files_get b64decode decode_utf8_ignore).
  assert (Hget : get_file path = Some txt
                 <-> exists payload bytes,
                       files_get path = Some payload
                       /\ b64decode payload = Some bytes
                       /\ decode_utf8_ignore bytes = txt).
  { unfold get_file, GitLabRepo.get_file. split.
    - destruct (files_get path) as [payload|]; [|discriminate].
      destruct (b64decode payload) as [bytes|] eqn:Hb; [|discriminate].
      intros H. injection H as <-. exists payload, bytes. repeat split. exact Hb.
    - intros (payload & bytes & -> & -> & <-). reflexivity. }
  split.
  - intros H. apply pull_contents_sound in H as [[] | (H1 & H2 & H3 & H4)].
    simpl in *. split; [exact H1|]. split; [exact H2|].
    split; [apply Hget; exact H3 | exact H4].
  - intros (H1 & H2 & H3 & H4).
    destruct (pull_contents_complete get_file selected [] (path, txt)) as [H | []].
    + repeat split; simpl; try assumption. apply Hget. exact H3.
    + exact H.
Qed.

Lemma contents_text_and_non_empty_witness :
  pull_contents
    (GitLabRepo.get_file Sample.files_get Sample.b64decode Sample.decode_utf8_ignore)
    [ "a.py" : text; "b.py" : text; "c.py" : text; "logo.png" : text ] []
  = [ ("a.py" : text, "print(1)" : text) ]
  /\ In ("a.py" : text, "print(1)" : text)
        (pull_contents
           (GitLabRepo.get_file Sample.files_get Sample.b64decode
                                Sample.decode_utf8_ignore)
           [ "a.py" : text; "b.py" : text; "c.py" : text; "logo.png" : text ] []).
Proof.
  split; [vm_compute; reflexivity|].
  apply (proj2 (contents_text_and_non_empty
                  Sample.files_get Sample.b64decode Sample.decode_utf8_ignore
                  [ "a.py" : text; "b.py" : text; "c.py" : text; "logo.png" : text ]
                  "a.py" "print(1)")).
  split; [left; reflexivity|]. split; [vm_compute; reflexivity|].
  split; [|discriminate].
  exists (list_ascii_of_string "cHJpbnQoMSk="),
         (map byte_of_ascii (list_ascii_of_string "print(1)")).
  repeat split; vm_compute; reflexivity.
Defined.

(** * Further properties *)

(** ** Patterns that ask for a backslash *)

Lemma needs_seq (c : ascii) (a b : Re.regex) :
  needs c a || needs c b = true -> needs c (Re.seq a b) = true.
Proof.
  intros H. destruct a, b; simpl in *; try reflexivity; try exact H;
    try (rewrite orb_false_r in H; exact H).
Qed.

Lemma needs_alt (c : ascii) (a b : Re.regex) :
  needs c a && needs c b = true -> needs c (Re.alt a b) = true.
Proof.
  intros H. destruct a, b; simpl in *; try reflexivity; try exact H;
    try (rewrite andb_true_r in H; exact H); try discriminate.
Qed.

Lemma needs_not_nullable (c : ascii) (bol eol : bool) (r : Re.regex) :
  needs c r = true -> Re.nullable bol eol r = false.
Proof.
  induction r as [| | p | | | | a IHa b IHb | a IHa b IHb | a IHa]; simpl;
    intros H; try reflexivity; try discriminate.
  - apply orb_true_iff in H as [H | H].
    + rewrite (IHa H). reflexivity.
    + rewrite (IHb H). apply andb_false_r.
  - apply andb_true_iff in H as [Ha Hb]. rewrite (IHa Ha), (IHb Hb). reflexivity.
Qed.

Lemma needs_deriv (c x : ascii) (bol eol : bool) (r : Re.regex) :
  Py.lower_char x <> Py.lower_char c ->
  needs c r = true -> needs c (Re.deriv bol eol x r) = true.
Proof.
  intros Hx.
  induction r as [| | p | | | | a IHa b IHb | a IHa b IHb | a IHa]; simpl;
    intros H; try reflexivity; try discriminate.
  - apply Ascii.eqb_eq in H.
    destruct (Ascii.eqb_spec (Py.lower_char p) (Py.lower_char x)) as [E | E].
    + exfalso. apply Hx. congruence.
    + reflexivity.
  - apply orb_true_iff in H as [H | H].
    + rewrite (needs_not_nullable c bol eol a H).
      apply needs_seq. rewrite (IHa H). reflexivity.
    + assert (Hd : needs c (Re.seq (Re.deriv bol eol x a) b) = true).
      { apply needs_seq. rewrite H. apply orb_true_r. }
      destruct (Re.nullable bol eol a); [|exact Hd].
      apply needs_alt. rewrite Hd, (IHb H). reflexivity.
  - apply andb_true_iff in H as [Ha Hb].
    apply needs_alt. rewrite (IHa Ha), (IHb Hb). reflexivity.
Qed.

Lemma needs_no_match (c : ascii) (r : Re.regex) (bol : bool) (s : text) :
  Forall (fun x => Py.lower_char x <> Py.lower_char c) s ->
  needs c r = true -> Re.match_here r bol s = false.
Proof.
  intros Hs. revert r bol. induction Hs as [|x s Hx Hs IH]; intros r bol H; simpl.
  - rewrite (needs_not_nullable c bol true r H). reflexivity.
  - rewrite (needs_not_nullable c bol _ r H). simpl.
    apply IH. apply needs_deriv; assumption.
Qed.

Lemma needs_no_search (c : ascii) (r : Re.regex) (bol : bool) (s : text) :
  Forall (fun x => Py.lower_char x <> Py.lower_char c) s ->
  needs c r = true -> Re.search_from r bol s = false.
Proof.
  intros Hs H. revert bol.
  induction Hs as [|x s Hx Hs IH]; intros bol; cbn [Re.search_from].
  - rewrite (needs_no_match c r bol []) by (try constructor; assumption).
    reflexivity.
  - rewrite (needs_no_match c r bol (x :: s)) by (try constructor; assumption).
    simpl. apply IH.
Qed.

Lemma lower_char_backslash (x : ascii) :
  Py.lower_char x = Py.lower_char "\" -> x = "\"%char.
Proof. by_cases_on_char x. Qed.

Lemma no_backslash_lower (s : text) :
  ~ In "\"%char s ->
  Forall (fun x => Py.lower_char x <> Py.lower_char "\") s.
Proof.
  intros H. apply Forall_forall. intros x Hin E.
  apply lower_char_backslash in E. subst x. contradiction.
Qed.

(** Sixteen of the eighteen patterns ask for a backslash. *)
Lemma patterns_need_backslash :
  Forall (fun p => p = list_ascii_of_string "(^|/)Dockerfile$"
                   \/ p = list_ascii_of_string "(^|/)Makefile$"
                   \/ exists r, Re.compile p = Some r /\ needs "\" r = true)
         patterns.
Proof.
  unfold patterns.
  repeat (constructor;
          [first [ left; reflexivity
                 | right; left; reflexivity
                 | right; right; eexists; split; vm_compute; reflexivity ]|]).
  constructor.
Qed.

Lemma search_without_backslash (p f : text) :
  In p patterns -> ~ In "\"%char f -> Re.search p f = true ->
  p = list_ascii_of_string "(^|/)Dockerfile$"
  \/ p = list_ascii_of_string "(^|/)Makefile$".
Proof.
  intros Hp Hf Hs.
  pose proof (proj1 (Forall_forall _ _) patterns_need_backslash p Hp)
    as [H | [H | (r & Hc & Hn)]]; [left; exact H | right; exact H |].
  exfalso. unfold Re.search in Hs. rewrite Hc in Hs.
  rewrite (needs_no_search "\" r true f (no_backslash_lower f Hf) Hn) in Hs.
  discriminate.
Qed.

Lemma filter_none {A : Type} (f : A -> bool) (l : list A) :
  (forall x, In x l -> f x = false) -> filter f l = [].
Proof.
  induction l as [|x l IH]; intros H; simpl; [reflexivity|].
  rewrite (H x) by (left; reflexivity). apply IH.
  intros y Hy. apply H. right. exact Hy.
Qed.

Lemma priority_of_none (pats files : list text) :
  (forall p f, In p pats -> In f files -> Re.search p f = false) ->
  priority_of pats files = [].
Proof.
  intros H. unfold priority_of. induction pats as [|p pats IH]; simpl; [reflexivity|].
  rewrite filter_none by (intros f Hf; apply H; [left; reflexivity | exact Hf]).
  simpl. apply IH. intros q f Hq Hf. apply H; [right; exact Hq | exact Hf].
Qed.

Lemma contains_char (c : ascii) (s : text) :
  Py.contains s [c] = false -> ~ In c s.
Proof.
  induction s as [|x s IH]; simpl; intros H; [intros []|].
  apply orb_false_iff in H as [Hx Hs].
  rewrite andb_true_r in Hx. apply Ascii.eqb_neq in Hx.
  intros [E | E]; [contradiction | exact (IH Hs E)].
Qed.

Lemma priority_of_relevant (pats files : list text) :
  (forall p, In p pats -> In p patterns) ->
  Forall (fun f => Py.contains f "\" = false) files ->
  priority_of pats files
  = priority_of
      (filter (fun p => Py.str_eqb p "(^|/)Dockerfile$"
                        || Py.str_eqb p "(^|/)Makefile$") pats)
      files.
Proof.
  intros Hin Hfiles. unfold priority_of.
  induction pats as [|p pats IH]; [reflexivity|].
  assert (IH' := IH (fun q Hq => Hin q (or_intror Hq))).
  cbn [flat_map filter].
  destruct (Py.str_eqb p "(^|/)Dockerfile$" || Py.str_eqb p "(^|/)Makefile$") eqn:E.
  - cbn [flat_map]. rewrite IH'. reflexivity.
  - rewrite filter_none; [exact IH'|].
    intros f Hf. destruct (Re.search p f) eqn:Hs; [|reflexivity].
    exfalso. apply orb_false_iff in E as [E1 E2].
    apply str_eqb_neq in E1. apply str_eqb_neq in E2.
    assert (Hb : ~ In "\"%char f).
    { apply contains_char. exact (proj1 (Forall_forall _ _) Hfiles f Hf). }
    destruct (search_without_backslash p f (Hin p (or_introl eq_refl)) Hb Hs);
      contradiction.
Qed.

(** ** Selection: where the paths come from and how they are ordered *)

Lemma slice_to_prefix {A : Type} (s : list A) (hi : Z) :
  exists k, Py.slice_to s hi = firstn k s.
Proof.
  unfold Py.slice_to, Py.slice.
  assert (E : Py.clamp (Py.len s) 0 = 0).
  { apply clamp_inside. pose proof (len_nonneg s). lia. }
  rewrite E. simpl skipn. eexists. reflexivity.
Qed.

Lemma first_seen_app (a b : list text) :
  first_seen (a ++ b)
  = first_seen a ++ filter (fun y => negb (Py.str_in y a)) (first_seen b).
Proof.
  induction a as [|x a IH]; simpl.
  - induction (first_seen b) as [|y s IHs]; simpl; [|rewrite <- IHs]; reflexivity.
  - f_equal. rewrite IH, filter_app, filter_filter. f_equal.
    apply filter_ext. intros y. rewrite (str_eqb_sym y x).
    destruct (Py.str_eqb x y) eqn:E; simpl.
    + destruct (Py.str_in y a); reflexivity.
    + rewrite andb_true_r. reflexivity.
Qed.

Lemma matches_rule_priority (files : list text) (f : text) :
  In f (priority_of patterns files) <-> In f files /\ matches_rule f = true.
Proof.
  unfold priority_of, matches_rule. rewrite in_flat_map, existsb_exists. split.
  - intros (p & Hp & Hf). apply filter_In in Hf as [Hf Hs].
    split; [exact Hf | exists p; split; assumption].
  - intros (Hf & p & Hp & Hs). exists p. split; [exact Hp|].
    apply filter_In. split; assumption.
Qed.

Lemma str_in_false (x : text) (l : list text) : Py.str_in x l = false <-> ~ In x l.
Proof.
  rewrite <- str_in_In. destruct (Py.str_in x l); split; intros; congruence.
Qed.

Lemma candidates_In (files : list text) (f : text) :
  In f (candidates files)
  <-> In f files /\ (matches_rule f = true \/ is_text_file f = true).
Proof.
  unfold candidates, remainder_of. rewrite in_app_iff, filter_In, matches_rule_priority.
  split.
  - intros [[Hf Hm] | [Hf Ht]].
    + split; [exact Hf | left; exact Hm].
    + apply andb_true_iff in Ht as [_ Ht]. split; [exact Hf | right; exact Ht].
  - intros [Hf [Hm | Ht]]; [left; split; assumption|].
    destruct (matches_rule f) eqn:Hm; [left; split; [exact Hf | reflexivity]|].
    right. split; [exact Hf|]. rewrite Ht, andb_true_r.
    apply negb_true_iff. apply str_in_false.
    rewrite matches_rule_priority. intros [_ H]. congruence.
Qed.

(** The candidates in first-seen order: first the paths that match a rule,
    then paths that match none. *)
Lemma first_seen_candidates (files : list text) :
  exists matched others,
    first_seen (candidates files) = matched ++ others
    /\ Forall (fun f => matches_rule f = true) matched
    /\ Forall (fun f => matches_rule f = false) others.
Proof.
  unfold candidates. rewrite first_seen_app.
  eexists. eexists. split; [reflexivity|]. split.
  - apply Forall_forall. intros f Hf. apply (proj1 (first_seen_In _ _)) in Hf.
    apply (proj1 (matches_rule_priority _ _)) in Hf. apply Hf.
  - apply Forall_forall. intros f Hf. apply filter_In in Hf as [Hf Hn].
    apply (proj1 (first_seen_In _ _)) in Hf. unfold remainder_of in Hf.
    apply filter_In in Hf as [Hfiles _].
    apply negb_true_iff, str_in_false in Hn.
    destruct (matches_rule f) eqn:Hm; [|reflexivity].
    exfalso. apply Hn. apply matches_rule_priority. split; assumption.
Qed.

Lemma after_first_unmatched {A : Type} (P : A -> bool) (matched others : list A) :
  Forall (fun x => P x = true) matched ->
  Forall (fun x => P x = false) others ->
  forall l1 x l2, matched ++ others = l1 ++ x :: l2 -> P x = false ->
                  Forall (fun y => P y = false) l2.
Proof.
  intros Hm. induction Hm as [|m matched Hp Hm IH]; intros Ho l1 x l2 E Hx.
  - simpl in E. rewrite E in Ho. apply Forall_app in Ho as [_ Ho].
    inversion Ho; assumption.
  - destruct l1 as [|y l1]; simpl in E.
    + injection E as -> _. congruence.
    + injection E as _ E. exact (IH Ho l1 x l2 E Hx).
Qed.

Lemma sample_is_prefix (files : list text) (limit : Z) :
  exists k, sample_files_for_llm files limit
            = firstn k (first_seen (candidates files)).
Proof.
  unfold sample_files_for_llm. rewrite fromkeys_first_seen. apply slice_to_prefix.
Qed.

(** X1.  On paths that hold no backslash, the only rules that can pick a
    path are the two written without an escape: the priority list is the
    paths matching [(^|/)Dockerfile$], then those matching [(^|/)Makefile$],
    each in tree order. *)
Theorem priority_without_backslash (files : list text) :
  Forall (fun f => Py.contains f "\" = false) files ->
  priority_of patterns files
  = filter (fun f => Re.search "(^|/)Dockerfile$" f) files
    ++ filter (fun f => Re.search "(^|/)Makefile$" f) files.
Proof.
  intros H. rewrite priority_of_relevant; [|intros p Hp; exact Hp | exact H].
  replace (filter (fun p => Py.str_eqb p "(^|/)Dockerfile$"
                            || Py.str_eqb p "(^|/)Makefile$") patterns)
    with [ list_ascii_of_string "(^|/)Dockerfile$";
           list_ascii_of_string "(^|/)Makefile$" ]
    by (vm_compute; reflexivity).
  unfold priority_of. cbn [flat_map]. rewrite app_nil_r. reflexivity.
Qed.

Lemma priority_without_backslash_witness :
  Forall (fun f => Py.contains f "\" = false)
         [ "pom.xml" : text; "app/main.py" : text; "ops/Makefile" : text;
           "Dockerfile" : text ]
  /\ priority_of patterns
       [ "pom.xml" : text; "app/main.py" : text; "ops/Makefile" : text;
         "Dockerfile" : text ]
     = [ "Dockerfile" : text; "ops/Makefile" : text ].
Proof.
  assert (H : Forall (fun f => Py.contains f "\" = false)
                     [ "pom.xml" : text; "app/main.py" : text;
                       "ops/Makefile" : text; "Dockerfile" : text ])
    by (repeat constructor).
  split; [exact H|].
  rewrite (priority_without_backslash _ H). vm_compute. reflexivity.
Defined.

(** X2.  Whatever the limit, a selected path is one of the given files,
    and it matches a rule or is recognised as a text file. *)
Theorem sample_provenance (files : list text) (limit : Z) (f : text) :
  In f (sample_files_for_llm files limit) ->
  In f files /\ (matches_rule f = true \/ is_text_file f = true).
Proof.
  intros H. destruct (sample_is_prefix files limit) as [k E].
  rewrite E in H. apply In_firstn in H.
  apply (proj1 (first_seen_In _ _)) in H.
  apply candidates_In. exact H.
Qed.

Lemma sample_provenance_witness :
  In (list_ascii_of_string "src/a.py")
     (sample_files_for_llm Sample.tree_with_dockerfile 3)
  /\ In (list_ascii_of_string "src/a.py") Sample.tree_with_dockerfile.
Proof.
  assert (H : In (list_ascii_of_string "src/a.py")
                 (sample_files_for_llm Sample.tree_with_dockerfile 3))
    by (vm_compute; right; left; reflexivity).
  split; [exact H|].
  exact (proj1 (sample_provenance Sample.tree_with_dockerfile 3 _ H)).
Defined.

(** X3.  Whatever the limit, the paths that match a rule come first in
    the selection: after a selected path that matches no rule, no selected
    path matches one. *)
Theorem sample_rules_first (files : list text) (limit : Z)
        (l1 l2 : list text) (x : text) :
  sample_files_for_llm files limit = l1 ++ x :: l2 ->
  matches_rule x = false ->
  Forall (fun y => matches_rule y = false) l2.
Proof.
  intros E Hx. destruct (sample_is_prefix files limit) as [k Hk].
  destruct (first_seen_candidates files) as (matched & others & Hc & Hm & Ho).
  assert (Hall : matched ++ others
                 = l1 ++ x :: (l2 ++ skipn k (first_seen (candidates files)))).
  { rewrite <- Hc.
    rewrite <- (firstn_skipn k (first_seen (candidates files))) at 1.
    rewrite <- Hk, E, <- app_assoc. reflexivity. }
  pose proof (after_first_unmatched matches_rule matched others Hm Ho _ _ _ Hall Hx)
    as H.
  apply Forall_app in H. apply H.
Qed.

Lemma sample_rules_first_witness :
  sample_files_for_llm Sample.tree_with_dockerfile 3
  = [ list_ascii_of_string "Dockerfile" ]
    ++ list_ascii_of_string "src/a.py" :: [ list_ascii_of_string "src/b.py" ]
  /\ matches_rule "src/a.py" = false
  /\ Forall (fun y => matches_rule y = false) [ list_ascii_of_string "src/b.py" ].
Proof.
  assert (E : sample_files_for_llm Sample.tree_with_dockerfile 3
              = [ list_ascii_of_string "Dockerfile" ]
                ++ list_ascii_of_string "src/a.py"
                   :: [ list_ascii_of_string "src/b.py" ])
    by (vm_compute; reflexivity).
  assert (Hx : matches_rule "src/a.py" = false) by (vm_compute; reflexivity).
  split; [exact E|]. split; [exact Hx|].
  exact (sample_rules_first Sample.tree_with_dockerfile 3 _ _ _ E Hx).
Defined.

(** X4.  When the limit is at least the number of files, nothing is cut:
    the selected paths are exactly the files that match a rule or are
    recognised as text files. *)
Theorem sample_complete (files : list text) (limit : Z) (f : text) :
  Py.len files <= limit ->
  (In f (sample_files_for_llm files limit)
   <-> In f files /\ (matches_rule f = true \/ is_text_file f = true)).
Proof.
  intros Hl. unfold sample_files_for_llm.
  pose proof (len_nonneg files) as Hn.
  rewrite slice_to_nonneg by lia. rewrite fromkeys_first_seen.
  rewrite firstn_all2.
  - rewrite first_seen_In. apply candidates_In.
  - assert (Hlen : (List.length (first_seen (candidates files))
                    <= List.length files)%nat).
    { apply NoDup_incl_length; [apply first_seen_NoDup|].
      intros x Hx. apply (proj1 (first_seen_In _ _)) in Hx.
      apply candidates_In in Hx. apply Hx. }
    unfold Py.len in Hl. lia.
Qed.

Lemma sample_complete_witness :
  Py.len Sample.tree_with_manifest <= 40
  /\ In (list_ascii_of_string "src/d.py")
        (sample_files_for_llm Sample.tree_with_manifest 40).
Proof.
  assert (H : Py.len Sample.tree_with_manifest <= 40) by (vm_compute; discriminate).
  split; [exact H|].
  apply (proj2 (sample_complete Sample.tree_with_manifest 40 "src/d.py" H)).
  split; [vm_compute; tauto | right; vm_compute; reflexivity].
Defined.

(** ** Recognising text files *)

Lemma lower_char_idem (c : ascii) : Py.lower_char (Py.lower_char c) = Py.lower_char c.
Proof. by_cases_on_char c. Qed.

Lemma lower_idem (s : text) : Py.lower (Py.lower s) = Py.lower s.
Proof.
  unfold Py.lower. rewrite map_map. apply map_ext. intros c. apply lower_char_idem.
Qed.

Lemma lower_char_slash (c : ascii) : Py.lower_char c = "/"%char -> c = "/"%char.
Proof. by_cases_on_char c. Qed.

Lemma lower_no_slash (s : text) : ~ In "/"%char s -> ~ In "/"%char (Py.lower s).
Proof.
  intros H Hin. unfold Py.lower in Hin. apply in_map_iff in Hin as (c & E & Hc).
  apply lower_char_slash in E. subst c. contradiction.
Qed.

Lemma basename_plain (s : text) : ~ In "/"%char s -> Py.basename s = s.
Proof.
  intros H. unfold Py.basename, Py.slice_from, Py.rfind.
  rewrite rfind_from_absent by exact H.
  change (-1 + 1) with (Py.len (@nil ascii)).
  pose proof (slice_middle (@nil ascii) s []) as E.
  rewrite app_nil_r in E. simpl app in E.
  change (Py.len (@nil ascii) + Py.len s) with (Py.len s) in E. exact E.
Qed.

Lemma basename_after_slash (front post : text) :
  ~ In "/"%char post -> Py.basename (front ++ "/"%char :: post) = post.
Proof.
  intros H. unfold Py.basename, Py.slice_from.
  rewrite rfind_last by exact H.
  pose proof (slice_middle (front ++ ["/"%char]) post []) as E.
  rewrite app_nil_r, <- app_assoc in E. simpl app in E.
  replace (Py.len front + 1) with (Py.len (front ++ ["/"%char]))
    by (rewrite len_app; reflexivity).
  replace (Py.len (front ++ "/"%char :: post))
    with (Py.len (front ++ ["/"%char]) + Py.len post).
  - exact E.
  - unfold Py.len. rewrite !length_app. simpl. lia.
Qed.

(** A path is its base name, or a front, a slash and its base name. *)
Lemma basename_split (s : text) :
  ~ In "/"%char (Py.basename s)
  /\ (s = Py.basename s \/ exists front, s = front ++ "/"%char :: Py.basename s).
Proof.
  destruct (in_dec ascii_dec "/"%char s) as [Hin | Hout].
  - apply last_occurrence in Hin. destruct Hin as (front & post & -> & Hpost).
    rewrite basename_after_slash by exact Hpost.
    split; [exact Hpost | right; exists front; reflexivity].
  - rewrite basename_plain by exact Hout. split; [exact Hout | left; reflexivity].
Qed.

Lemma basename_lower (s : text) : Py.basename (Py.lower s) = Py.lower (Py.basename s).
Proof.
  destruct (basename_split s) as [Hno [E | [front E]]].
  - rewrite <- E. apply basename_plain. apply lower_no_slash.
    rewrite E. exact Hno.
  - rewrite E at 1. unfold Py.lower. rewrite map_app. simpl map.
    change (Py.lower_char "/") with "/"%char.
    apply basename_after_slash. apply lower_no_slash. exact Hno.
Qed.

Lemma startswith_before (c : ascii) (a b r : text) :
  ~ In c r -> Py.startswith (a ++ c :: b) r = Py.startswith a r.
Proof.
  revert a. induction r as [|p r IH]; intros a H; [reflexivity|].
  destruct a as [|x a]; simpl.
  - destruct (Ascii.eqb_spec c p) as [E | E]; [|reflexivity].
    exfalso. apply H. left. symmetry. exact E.
  - rewrite IH; [reflexivity|]. intros Hin. apply H. right. exact Hin.
Qed.

Lemma endswith_basename (s suffix : text) :
  ~ In "/"%char suffix ->
  Py.endswith s suffix = Py.endswith (Py.basename s) suffix.
Proof.
  intros H. destruct (basename_split s) as [_ [E | [front E]]].
  - rewrite <- E. reflexivity.
  - rewrite E at 1. unfold Py.endswith.
    rewrite rev_app_distr. simpl rev. rewrite <- app_assoc. simpl app.
    apply startswith_before. intros Hin. apply H. apply in_rev. exact Hin.
Qed.

Lemma text_ext_no_slash : Forall (fun e => ~ In "/"%char e) text_ext.
Proof.
  unfold text_ext.
  repeat (constructor;
          [intros H; vm_compute in H;
           repeat (destruct H as [H | H]; [discriminate|]); exact H|]).
  constructor.
Qed.

Lemma basename_basename (s : text) : Py.basename (Py.basename s) = Py.basename s.
Proof. apply basename_plain. apply basename_split. Qed.

(** X5.  Recognition looks at the base name only, and not at its case:
    a path is a text file exactly when its lower-cased base name is. *)
Theorem is_text_file_basename (name : text) :
  is_text_file name = is_text_file (Py.lower (Py.basename name)).
Proof.
  unfold is_text_file.
  rewrite lower_idem, <- basename_lower, basename_basename.
  replace (existsb (Py.endswith (Py.basename (Py.lower name))) text_ext)
    with (existsb (Py.endswith (Py.lower name)) text_ext); [reflexivity|].
  pose proof text_ext_no_slash as H.
  induction H as [|e exts He _ IH]; simpl; [reflexivity|].
  rewrite IH, (endswith_basename (Py.lower name) e He). reflexivity.
Qed.

(** ** A tree below the cap is listed whole *)

Lemma pages_upto_mono (repository_tree : Z -> list GitLabRepo.entry) (j m : nat) :
  (j <= m)%nat ->
  Py.len (pages_upto repository_tree j) <= Py.len (pages_upto repository_tree m).
Proof.
  induction 1 as [|m Hle IH]; [lia|].
  rewrite pages_upto_S, len_app.
  pose proof (len_nonneg (repository_tree (Z.of_nat (S m)))). lia.
Qed.

(** X6.  When the pages 1 to [m] are not empty, the page after them is
    empty and together they hold fewer entries than the cap, the walk
    returns all of them, after [m + 1] requests. *)
Theorem walk_tree_complete
        (repository_tree : Z -> list GitLabRepo.entry) (MAX_FILES : Z)
        (fuel m : nat) :
  (forall j, (1 <= j <= m)%nat -> repository_tree (Z.of_nat j) <> []) ->
  repository_tree (Z.of_nat (S m)) = [] ->
  Py.len (pages_upto repository_tree m) < MAX_FILES ->
  (Z.to_nat MAX_FILES <= fuel)%nat ->
  GitLabRepo.walk_loop repository_tree MAX_FILES fuel [] 1
  = Some (pages_upto repository_tree m, Z.of_nat (S m))
  /\ GitLabRepo.walk_tree repository_tree MAX_FILES fuel
     = Some (pages_upto repository_tree m).
Proof.
  intros Hfull Hend Hlen Hfuel.
  pose proof (len_nonneg (pages_upto repository_tree m)) as Hm.
  destruct (walk_loop_from repository_tree MAX_FILES fuel 0)
    as (n & Hn & Hrun & Hstop & Hall).
  - intros j Hj. lia.
  - change (pages_upto repository_tree 0) with (@nil GitLabRepo.entry).
    change (Py.len (@nil GitLabRepo.entry)) with 0. lia.
  - change (pages_upto repository_tree 0) with (@nil GitLabRepo.entry) in Hrun.
    change (Z.of_nat 1) with 1 in Hrun.
    assert (E : n = S m).
    { destruct (Nat.lt_trichotomy n (S m)) as [Hlt | [Heq | Hgt]]; [|exact Heq|].
      - exfalso. destruct Hstop as [Hempty | Hcap].
        + apply (Hfull n); [lia | exact Hempty].
        + pose proof (pages_upto_mono repository_tree n m ltac:(lia)). lia.
      - exfalso. destruct (Hall (S m) ltac:(lia)) as [Hne _]. contradiction. }
    subst n.
    assert (Hp : pages_upto repository_tree (S m) = pages_upto repository_tree m).
    { rewrite pages_upto_S, Hend, app_nil_r. reflexivity. }
    rewrite Hp in Hrun. split; [exact Hrun|].
    unfold GitLabRepo.walk_tree. rewrite Hrun. reflexivity.
Qed.

Lemma walk_tree_complete_witness :
  GitLabRepo.walk_tree Sample.two_full_pages 400 400
  = Some (pages_upto Sample.two_full_pages 2)
  /\ Py.len (pages_upto Sample.two_full_pages 2) = 200.
Proof.
  split; [|vm_compute; reflexivity].
  refine (proj2 (walk_tree_complete Sample.two_full_pages 400 400 2 _ _ _ _)).
  - intros j Hj. assert (E : j = 1%nat \/ j = 2%nat) by lia.
    destruct E as [-> | ->]; vm_compute; discriminate.
  - reflexivity.
  - vm_compute. reflexivity.
  - vm_compute. lia.
Defined.

(** ** The contents, in order *)

Lemma set_fresh {V : Type} (k : text) (v : V) (d : list (text * V)) :
  ~ In k (Dict.keys d) -> Dict.set Py.str_eqb k v d = d ++ [(k, v)].
Proof.
  induction d as [|[k' v'] d IH]; simpl; intros H; [reflexivity|].
  destruct (Py.str_eqb k' k) eqn:E.
  - apply str_eqb_eq in E. exfalso. apply H. left. exact E.
  - rewrite IH; [reflexivity|]. intros Hin. apply H. right. exact Hin.
Qed.

Lemma kept_keys (get_file : text -> option text) (p q : text) :
  In q (Dict.keys (kept get_file p)) -> q = p.
Proof.
  unfold kept. destruct (is_text_file p); [|intros []].
  destruct (get_file p) as [[|c t]|]; simpl.
  - intros [].
  - intros [E | []]. symmetry. exact E.
  - intros [].
Qed.

Lemma pull_contents_ordered (get_file : text -> option text)
      (selected : list text) (contents : list (text * text)) :
  NoDup selected ->
  (forall p, In p selected -> ~ In p (Dict.keys contents)) ->
  pull_contents get_file selected contents
  = contents ++ flat_map (kept get_file) selected.
Proof.
  intros Hnd. revert contents.
  induction Hnd as [|p rest Hp Hnd IH]; intros contents Hfresh; simpl.
  - rewrite app_nil_r. reflexivity.
  - unfold kept at 1.
    assert (Hrest : forall q, In q rest -> ~ In q (Dict.keys contents))
      by (intros q Hq; apply Hfresh; right; exact Hq).
    destruct (is_text_file p); simpl; [|apply IH; exact Hrest].
    destruct (get_file p) as [[|c t]|]; simpl; try (apply IH; exact Hrest).
    rewrite set_fresh by (apply Hfresh; left; reflexivity).
    rewrite IH.
    + rewrite <- app_assoc. reflexivity.
    + intros q Hq. unfold Dict.keys. rewrite map_app, in_app_iff. simpl.
      intros [H | [H | []]].
      * exact (Hrest q Hq H).
      * subst q. contradiction.
Qed.

(** X7.  For a selection without duplicates, the mapping lists, in the
    order of the selection, each selected text file whose content was
    fetched and is not empty, with that content, and nothing else. *)
Theorem contents_in_selection_order
        (get_file : text -> option text) (selected : list text) :
  NoDup selected ->
  pull_contents get_file selected [] = flat_map (kept get_file) selected.
Proof.
  intros H. rewrite pull_contents_ordered; [reflexivity | exact H |].
  intros p _ [].
Qed.

Lemma contents_in_selection_order_witness :
  NoDup [ "a.py" : text; "b.py" : text; "c.py" : text; "logo.png" : text ]
  /\ pull_contents
       (GitLabRepo.get_file Sample.files_get Sample.b64decode
                            Sample.decode_utf8_ignore)
       [ "a.py" : text; "b.py" : text; "c.py" : text; "logo.png" : text ] []
     = flat_map
         (kept (GitLabRepo.get_file Sample.files_get Sample.b64decode
                                    Sample.decode_utf8_ignore))
         [ "a.py" : text; "b.py" : text; "c.py" : text; "logo.png" : text ].
Proof.
  assert (H : NoDup [ "a.py" : text; "b.py" : text; "c.py" : text;
                      "logo.png" : text ]).
  { repeat constructor; intros H; vm_compute in H;
      repeat (destruct H as [H | H]; [discriminate|]); exact H. }
  split; [exact H|].
  exact (contents_in_selection_order _ _ H).
Defined.

Lemma sample_NoDup (files : list text) (limit : Z) :
  NoDup (sample_files_for_llm files limit).
Proof.
  destruct (sample_is_prefix files limit) as [k E]. rewrite E.
  apply NoDup_firstn, first_seen_NoDup.
Qed.

Lemma flat_map_kept_length (get_file : text -> option text) (l : list text) :
  (List.length (flat_map (kept get_file) l) <= List.length l)%nat.
Proof.
  induction l as [|p l IH]; simpl; [lia|].
  rewrite length_app. unfold kept at 1.
  destruct (is_text_file p); simpl; [|lia].
  destruct (get_file p) as [[|c t]|]; simpl; lia.
Qed.

Lemma flat_map_kept_keys (get_file : text -> option text) (l : list text) :
  NoDup l -> NoDup (Dict.keys (flat_map (kept get_file) l))
             /\ incl (Dict.keys (flat_map (kept get_file) l)) l.
Proof.
  induction 1 as [|p l Hp Hnd [IH1 IH2]]; simpl.
  - split; [constructor | intros x []].
  - unfold Dict.keys in *. rewrite map_app. split.
    + unfold kept at 1. destruct (is_text_file p); simpl; [|exact IH1].
      destruct (get_file p) as [[|c t]|]; simpl; try exact IH1.
      constructor; [|exact IH1]. intros Hin. apply Hp. apply IH2. exact Hin.
    + intros x Hx. apply in_app_iff in Hx as [Hx | Hx].
      * left. symmetry. apply (kept_keys get_file p x). exact Hx.
      * right. apply IH2. exact Hx.
Qed.

(** X8.  From any tree, [main] hands at most 40 files to the analyzer,
    each under a different path, and every such path is the path of a
    blob of the tree. *)
Theorem main_contents_bounded
        (get_file : text -> option text) (tree : list GitLabRepo.entry) :
  Py.len (main_contents get_file tree) <= 40
  /\ NoDup (Dict.keys (main_contents get_file tree))
  /\ forall p, In p (Dict.keys (main_contents get_file tree)) ->
               exists t, In t tree /\ GitLabRepo.path t = p
                         /\ GitLabRepo.type t = list_ascii_of_string "blob".
Proof.
  unfold main_contents.
  set (selected := sample_files_for_llm (blob_paths tree) 40).
  assert (Hnd : NoDup selected) by apply sample_NoDup.
  assert (E : pull_contents get_file selected [] = flat_map (kept get_file) selected).
  { rewrite pull_contents_ordered; [reflexivity | exact Hnd | intros p _ []]. }
  rewrite E.
  destruct (flat_map_kept_keys get_file selected Hnd) as [Hk Hincl].
  split; [|split; [exact Hk|]].
  - pose proof (flat_map_kept_length get_file selected) as Hlen.
    assert (Hsel : (List.length selected <= 40)%nat).
    { unfold selected, sample_files_for_llm.
      rewrite slice_to_nonneg by lia. rewrite length_firstn. lia. }
    unfold Py.len. lia.
  - intros p Hp. apply Hincl in Hp. unfold selected in Hp.
    destruct (sample_is_prefix (blob_paths tree) 40) as [k Ek].
    rewrite Ek in Hp. apply In_firstn in Hp.
    apply (proj1 (first_seen_In _ _)) in Hp.
    apply candidates_In in Hp as [Hp _].
    unfold blob_paths in Hp. apply in_map_iff in Hp as (t & Ht & Hin).
    apply filter_In in Hin as [Hin Hb]. apply str_eqb_eq in Hb.
    exists t. split; [exact Hin | split; [exact Ht | exact Hb]].
Qed.

(** ** The request *)

Section MoreRequest.

Import AzureOpenAIAnalyzer.

Lemma snippet_loop_prefix (items : list (text * text)) (used : Z) (acc : list text) :
  exists k,
    snippet_loop items used acc
    = acc ++ map (fun f => snippet (fst f)) (firstn k items)
    /\ (k <= List.length items)%nat
    /\ forall j : nat, used + 3000 * Z.of_nat j <= limit ->
                       (Nat.min (S j) (List.length items) <= k)%nat.
Proof.
  revert used acc. induction items as [|[p t] items IH]; intros used acc.
  - exists 0%nat. cbn [snippet_loop firstn map List.length].
    rewrite app_nil_r. split; [reflexivity|]. split; intros; lia.
  - cbn [snippet_loop]. destruct (Z.gtb_spec used limit) as [Hover | Hunder].
    + exists 0%nat. cbn [firstn map]. rewrite app_nil_r.
      split; [reflexivity|]. split; [lia|]. intros j Hj. lia.
    + destruct (IH (used + Py.len (Py.slice_to t per_file)) (acc ++ [snippet p]))
        as (k & E & Hk & Hfirst).
      exists (S k). rewrite E. cbn [firstn map fst List.length].
      rewrite <- app_assoc. cbn [app].
      split; [reflexivity|]. split; [lia|].
      intros [|j] Hj; [lia|].
      assert (Hshort : Py.len (Py.slice_to t per_file) <= 3000).
      { rewrite len_slice_to by (unfold per_file; lia). unfold per_file. lia. }
      assert (Hj' : used + Py.len (Py.slice_to t per_file) + 3000 * Z.of_nat j
                    <= limit) by lia.
      specialize (Hfirst j Hj'). lia.
Qed.

(** X9.  The snippets are those of the first [k] sampled files, for some
    [k], and the first five files are never skipped. *)
Theorem snippets_first_five (files : list (text * text)) :
  exists k,
    snippet_pairs files = map (fun f => snippet (fst f)) (firstn k files)
    /\ (Nat.min 5 (List.length files) <= k <= List.length files)%nat.
Proof.
  destruct (snippet_loop_prefix files 0 []) as (k & E & Hk & Hfirst).
  exists k. split; [exact E|]. split; [|exact Hk].
  apply (Hfirst 4%nat). vm_compute. discriminate.
Qed.

(** X10.  The request does not depend on what the sampled files hold, only
    on how long they are: with every content replaced by as many [x], the
    [input] array is the same. *)
Theorem request_ignores_contents
        (project_summary : text) (sampled_files : list (text * text)) :
  input project_summary sampled_files
  = input project_summary
          (map (fun f => (fst f, repeat "x"%char (List.length (snd f))))
               sampled_files).
Proof.
  unfold input. do 3 f_equal. apply input_text_lengths.
  induction sampled_files as [|[p t] files IH]; simpl; constructor.
  - split; [reflexivity|]. unfold Py.len. simpl. rewrite repeat_length. reflexivity.
  - exact IH.
Qed.

(** ** Braces out of order *)





End MoreRequest.

(** ** The mind map *)

Lemma get_set (k q : text) {V : Type} (v : V) (d : list (text * V)) :
  Dict.get Py.str_eqb q (Dict.set Py.str_eqb k v d)
  = if Py.str_eqb k q then Some v else Dict.get Py.str_eqb q d.
Proof.
  induction d as [|[k' v'] d IH]; simpl; [reflexivity|].
  destruct (Py.str_eqb k' k) eqn:E; simpl.
  - apply str_eqb_eq in E. subst k'. destruct (Py.str_eqb k q); reflexivity.
  - rewrite IH. destruct (Py.str_eqb k' q) eqn:E'; [|reflexivity].
    destruct (Py.str_eqb k q) eqn:E''; [|reflexivity].
    apply str_eqb_eq in E', E''. subst. rewrite str_eqb_refl in E. discriminate.
Qed.

Lemma has_set (k q v : text) (d : list (text * text)) :
  Mindmap.has (Dict.set Py.str_eqb k v d) q = Mindmap.has d q || Py.str_eqb q k.
Proof.
  unfold Mindmap.has. rewrite keys_set.
  destruct (Py.str_in k (Dict.keys d)) eqn:E.
  - destruct (Py.str_eqb q k) eqn:Eq; [|rewrite orb_false_r; reflexivity].
    apply str_eqb_eq in Eq. subst q. rewrite E. reflexivity.
  - unfold Py.str_in. rewrite existsb_app. simpl. rewrite orb_false_r. reflexivity.
Qed.

Section MindmapProofs.

Import Mindmap.

Lemma slugs_only_set (bmap : list (text * text)) (k : text) :
  slugs_only bmap -> slugs_only (Dict.set Py.str_eqb k (norm k) bmap).
Proof.
  intros H q v. rewrite get_set. destruct (Py.str_eqb k q) eqn:E.
  - apply str_eqb_eq in E. subst q. intros Hv. injection Hv as <-. reflexivity.
  - apply H.
Qed.

Lemma get_or_slug (bmap : list (text * text)) (k : text) :
  slugs_only bmap -> get_or bmap k (norm k) = norm k.
Proof.
  intros H. unfold get_or.
  destruct (Dict.get Py.str_eqb k bmap) as [v|] eqn:E; [apply H; exact E | reflexivity].
Qed.

Lemma branch_loop_lines (branches : list text) (bmap : list (text * text))
      (lines : list text) :
  slugs_only bmap ->
  exists bmap',
    branch_loop branches bmap lines = (bmap', lines ++ branch_lines branches)
    /\ slugs_only bmap'
    /\ forall k, has bmap' k = has bmap k || Py.str_in k branches.
Proof.
  revert bmap lines. induction branches as [|b rest IH]; intros bmap lines Hs.
  - exists bmap. simpl. rewrite app_nil_r. split; [reflexivity|].
    split; [exact Hs|]. intros k. rewrite orb_false_r. reflexivity.
  - cbn [branch_loop].
    destruct (IH (Dict.set Py.str_eqb b (norm b) bmap)
                 (lines ++ [declaration (norm b) b; link "root" (norm b)])
                 (slugs_only_set bmap b Hs)) as (bmap' & E & Hs' & Hm).
    exists bmap'. rewrite E. split.
    + unfold branch_lines. cbn [flat_map]. rewrite <- app_assoc. reflexivity.
    + split; [exact Hs'|]. intros k. rewrite Hm, has_set.
      unfold Py.str_in at 2. cbn [existsb]. rewrite orb_assoc. reflexivity.
Qed.

Lemma edge_loop_lines (edges : list (text * text)) (bmap : list (text * text))
      (lines known : list text) :
  slugs_only bmap ->
  (forall k, has bmap k = Py.str_in k known) ->
  edge_loop edges bmap lines = lines ++ edge_lines known edges.
Proof.
  revert bmap lines known.
  induction edges as [|[a b] rest IH]; intros bmap lines known Hs Hm.
  - simpl. rewrite app_nil_r. reflexivity.
  - cbn [edge_loop edge_lines].
    rewrite (get_or_slug bmap a Hs), (get_or_slug bmap b Hs), (Hm a).
    assert (Hb : forall bmap1,
               (forall k, has bmap1 k = Py.str_in k (a :: known)) ->
               has bmap1 b = Py.str_in b (a :: known)) by (intros ? H; apply H).
    destruct (Py.str_in a known) eqn:Ha; cbn [negb].
    + assert (Hm1 : forall k, has bmap k = Py.str_in k (a :: known)).
      { intros k. rewrite Hm. unfold Py.str_in. cbn [existsb].
        destruct (Py.str_eqb k a) eqn:E; [|reflexivity].
        apply str_eqb_eq in E. subst k. exact Ha. }
      rewrite (Hb bmap Hm1).
      destruct (Py.str_in b (a :: known)); cbn [negb];
        rewrite (IH _ _ (a :: known) Hs Hm1), <- !app_assoc; reflexivity.
    + assert (Hm1 : forall k, has (Dict.set Py.str_eqb a (norm a) bmap) k
                              = Py.str_in k (a :: known)).
      { intros k. rewrite has_set, Hm. unfold Py.str_in. cbn [existsb].
        apply orb_comm. }
      rewrite (Hb _ Hm1).
      destruct (Py.str_in b (a :: known)); cbn [negb];
        rewrite (IH _ _ (a :: known) (slugs_only_set bmap a Hs) Hm1), <- !app_assoc;
        reflexivity.
Qed.

(** X12.  In the mind map every identifier is the slug of its name, with
    or without an entry in [bmap], and the argument [root] is not used:
    the text is the opening fence, a declaration and a link from [root]
    for each branch, for each edge the declarations of its end points that
    are not yet known (a source stays known, a target does not) and its
    link, and the closing fence. *)
Theorem emit_mermaid_mindmap_lines
        (root : text) (branches : list text) (edges : list (text * text)) :
  emit_mermaid_mindmap root branches edges
  = Py.join ["010"%char]
            ([fence_open] ++ branch_lines branches
             ++ edge_lines branches edges ++ [fence_close]).
Proof.
  unfold emit_mermaid_mindmap.
  assert (H0 : slugs_only []) by (intros k v H; discriminate).
  destruct (branch_loop_lines branches [] [fence_open] H0) as (bmap & E & Hs & Hm).
  rewrite E.
  rewrite (edge_loop_lines edges bmap _ branches Hs).
  - rewrite <- !app_assoc. reflexivity.
  - intros k. rewrite Hm. reflexivity.
Qed.

End MindmapProofs.

(** ** Slugs are stable *)

Lemma ident_lower (c : ascii) : is_ident_char c = true -> Py.lower_char c = c.
Proof. by_cases_on_char c. Qed.

Lemma ident_not_alnum (c : ascii) :
  is_ident_char c = true -> Py.is_alnum c = false -> c = "_"%char.
Proof. by_cases_on_char c. Qed.

(** What [norm] returns: an identifier in the sense of C9. *)
Lemma norm_shape (s : text) :
  norm s <> []
  /\ Forall (fun c => is_ident_char c = true) (norm s)
  /\ Py.startswith (norm s) "_" = false
  /\ Py.endswith (norm s) "_" = false
  /\ Py.contains (norm s) "__" = false.
Proof.
  unfold norm.
  pose proof (strip_split "_" (sub_non_alnum false (Py.lower s))) as (i & j & Hsplit).
  pose proof (sub_non_alnum_ident false s) as Hident.
  pose proof (sub_non_alnum_single false (Py.lower s)) as Hsingle.
  pose proof (strip_head "_" (sub_non_alnum false (Py.lower s))) as Hhead.
  pose proof (rstrip_tail "_" (Py.lstrip "_" (sub_non_alnum false (Py.lower s))))
    as Htail.
  fold (Py.strip "_" (sub_non_alnum false (Py.lower s))) in Htail.
  rewrite Hsplit in Hident, Hsingle.
  apply Forall_app in Hident as [_ Hident]. apply Forall_app in Hident as [Hident _].
  apply contains_infix in Hsingle.
  destruct (Py.strip "_" (sub_non_alnum false (Py.lower s))) as [|c slug].
  - vm_compute. repeat split; try discriminate; repeat constructor.
  - split; [discriminate|]. repeat split; assumption.
Qed.

Lemma sub_non_alnum_fixed (in_run : bool) (t : text) :
  Forall (fun c => is_ident_char c = true) t ->
  Py.contains t "__" = false ->
  (in_run = true -> Py.startswith t "_" = false) ->
  sub_non_alnum in_run t = t.
Proof.
  intros Hid. revert in_run.
  induction Hid as [|c t Hc Ht IH]; intros in_run Hsingle Hrun; [reflexivity|].
  cbn [sub_non_alnum]. cbn [Py.contains] in Hsingle.
  apply orb_false_iff in Hsingle as [Hstart Hrest].
  destruct (Py.is_alnum c) eqn:Ha.
  - f_equal. apply IH; [exact Hrest | intros E; discriminate].
  - pose proof (ident_not_alnum c Hc Ha) as ->.
    destruct in_run.
    + specialize (Hrun eq_refl). simpl in Hrun. discriminate.
    + f_equal. apply IH; [exact Hrest|]. intros _.
      destruct t as [|x t]; [reflexivity|].
      simpl in Hstart |- *. destruct (Ascii.eqb x "_"); [discriminate | reflexivity].
Qed.

Lemma lstrip_fixed (c : ascii) (t : text) :
  Py.startswith t [c] = false -> Py.lstrip c t = t.
Proof.
  destruct t as [|x t]; [reflexivity|]. simpl.
  destruct (Ascii.eqb x c); [discriminate | reflexivity].
Qed.

Lemma strip_fixed (c : ascii) (t : text) :
  Py.startswith t [c] = false -> Py.endswith t [c] = false -> Py.strip c t = t.
Proof.
  intros Hs He. unfold Py.strip, Py.rstrip.
  rewrite (lstrip_fixed c t Hs).
  rewrite lstrip_fixed; [apply rev_involutive | exact He].
Qed.

(** X13.  A slug is its own slug: [norm] applied twice gives what it gives
    once. *)
Theorem norm_idempotent (s : text) : norm (norm s) = norm s.
Proof.
  destruct (norm_shape s) as (Hne & Hid & Hhead & Htail & Hsingle).
  unfold norm at 1.
  assert (Hlow : Py.lower (norm s) = norm s).
  { unfold Py.lower. rewrite <- (map_id (norm s)) at 2.
    apply map_ext_in. intros c Hc. apply ident_lower.
    exact (proj1 (Forall_forall _ _) Hid c Hc). }
  rewrite Hlow.
  rewrite (sub_non_alnum_fixed false (norm s) Hid Hsingle) by (intros E; discriminate).
  rewrite (strip_fixed "_" (norm s) Hhead Htail).
  destruct (norm s); [contradiction | reflexivity].
Qed.

(** ** The files of the report *)


(** ** The environment *)

Lemma startswith_self_app (k b : text) : Py.startswith (k ++ b) k = true.
Proof.
  induction k as [|x k IH]; simpl; [reflexivity|].
  rewrite Ascii.eqb_refl, IH. reflexivity.
Qed.

Lemma contains_start (s needle : text) :
  Py.startswith s needle = true -> Py.contains s needle = true.
Proof. intros H. destruct s; simpl; rewrite H; reflexivity. Qed.

Lemma contains_middle (a k b : text) : Py.contains (a ++ k ++ b) k = true.
Proof.
  destruct (Py.contains (a ++ k ++ b) k) eqn:E; [reflexivity|].
  apply contains_infix in E. rewrite <- E.
  apply contains_start. pose proof (startswith_self_app k []) as H.
  rewrite app_nil_r in H. exact H.
Qed.

Lemma join_In (sep k : text) (parts : list text) :
  In k parts -> exists a b, Py.join sep parts = a ++ k ++ b.
Proof.
  induction parts as [|p parts IH]; intros H; [contradiction|].
  destruct H as [-> | H].
  - destruct parts as [|q parts].
    + exists [], []. simpl. rewrite app_nil_r. reflexivity.
    + exists [], (sep ++ Py.join sep (q :: parts)). reflexivity.
  - destruct (IH H) as (a & b & E). destruct parts as [|q parts]; [contradiction|].
    exists (p ++ sep ++ a), b.
    change (Py.join sep (p :: q :: parts)) with (p ++ sep ++ Py.join sep (q :: parts)).
    rewrite E, <- !app_assoc. reflexivity.
Qed.

(** X15.  [ensure_env] returns exactly when each of the five required
    variables is set to a value that is not empty; otherwise it leaves with
    status 1, after a message that names every variable that is absent or
    empty. *)
Theorem ensure_env_checks_all (getenv : text -> option text) :
  (ensure_env getenv = Returns
   <-> forall k, In k required_env -> exists c v, getenv k = Some (c :: v))
  /\ (forall status stderr,
        ensure_env getenv = Exits status stderr ->
        status = 1
        /\ forall k, In k required_env -> unset getenv k = true ->
                     Py.contains stderr k = true).
Proof.
  unfold ensure_env. split.
  - split.
    + intros H k Hk.
      destruct (filter (unset getenv) required_env) as [|m ms] eqn:E; [|discriminate].
      assert (Hu : unset getenv k = false).
      { destruct (unset getenv k) eqn:U; [|reflexivity].
        assert (Hin : In k (filter (unset getenv) required_env))
          by (apply filter_In; split; assumption).
        rewrite E in Hin. contradiction. }
      unfold unset in Hu. destruct (getenv k) as [[|c v]|]; try discriminate.
      exists c, v. reflexivity.
    + intros H. rewrite filter_none; [reflexivity|].
      intros k Hk. destruct (H k Hk) as (c & v & E). unfold unset. rewrite E.
      reflexivity.
  - intros status stderr. cbv zeta.
    generalize (list_ascii_of_string "Missing required environment variables: ").
    intros prefix.
    remember (filter (unset getenv) required_env) as missing eqn:E.
    remember (Py.join ", " missing) as joined eqn:Ej.
    destruct missing as [|m ms]; [discriminate|].
    intros H. injection H as Hstatus Hmsg. split; [symmetry; exact Hstatus|].
    intros k Hk Hu.
    assert (Hin : In k (m :: ms)).
    { rewrite E. apply filter_In. split; assumption. }
    destruct (join_In ", " k (m :: ms) Hin) as (a & b & Ejoin).
    rewrite <- Hmsg, Ej, Ejoin.
    replace (prefix ++ (a ++ k ++ b) ++ ["010"%char])
      with ((prefix ++ a) ++ k ++ (b ++ ["010"%char]))
      by (rewrite <- !app_assoc; reflexivity).
    apply contains_middle.
Qed.

(** ** Cleaning a path *)

Lemma lstrip_space_head (s : text) :
  match lstrip_space s with
  | c :: _ => is_space c = false
  | [] => True
  end.
Proof.
  induction s as [|x s IH]; simpl; [exact I|].
  destruct (is_space x) eqn:E; [exact IH | exact E].
Qed.

(** X16.  A cleaned path never starts with a slash and never ends with
    white space. *)
Theorem sanitize_path_shape (p : text) :
  Py.startswith (sanitize_path p) "/" = false
  /\ forall front c, sanitize_path p = front ++ [c] -> is_space c = false.
Proof.
  unfold sanitize_path. split; [apply lstrip_head|].
  intros front c E. unfold strip_space in *.
  pose proof (lstrip_space_head (rev (lstrip_space p))) as Hh.
  destruct (lstrip_split "/" (rev (lstrip_space (rev (lstrip_space p)))))
    as [k Hk].
  rewrite E in Hk.
  apply (f_equal (@rev ascii)) in Hk. rewrite rev_involutive in Hk.
  rewrite !rev_app_distr in Hk. simpl in Hk. rewrite Hk in Hh. exact Hh.
Qed.
